(** * Geographic_data_analysis: the FastAPI/PostGIS request layer

    A shallow embedding of [backend/db.py] (the GeoJSON adapter) and of the
    request handlers of [backend/backend/main.py].  Python values that flow
    through the handlers are JSON values; a Python [dict] is an association
    list with unique keys (insertion order kept); Python [None] is [JNull].
    Python doubles are Rocq's primitive binary64 floats.  Handlers run in a
    small exception monad; the spatial database is a record of its primitive
    operations ([Engine]), with SQL's own NULL, ORDER BY and LIMIT semantics
    written out where the handlers rely on them. *)

From Stdlib Require Import ZArith List Bool Lia String Ascii Floats.
From Stdlib Require Import Permutation Sorting.Sorted.
Import ListNotations.
Open Scope string_scope.
Open Scope Z_scope.
#[local] Set Warnings "-register-all,-inexact-float".

(** ** Python values *)

Inductive json : Type :=
| JNull                                   (* None / null *)
| JBool (b : bool)
| JInt (z : Z)
| JFloat (f : float)
| JStr (s : string)
| JList (l : list json)
| JDict (kvs : list (string * json)).

Definition dict := list (string * json).

(** [d.get(k)]: the value under [k], [None] when the key is absent. *)
Fixpoint py_get (d : dict) (k : string) : json :=
  match d with
  | [] => JNull
  | (k', v) :: d' => if String.eqb k k' then v else py_get d' k
  end.

Fixpoint py_has_key (d : dict) (k : string) : bool :=
  match d with
  | [] => false
  | (k', _) :: d' => String.eqb k k' || py_has_key d' k
  end.

(** [d.get(k, default)] *)
Definition py_get_default (d : dict) (k : string) (def : json) : json :=
  if py_has_key d k then py_get d k else def.

(** [d.pop(k, None)]: the value and the dict without the key. *)
Definition py_pop (d : dict) (k : string) : json * dict :=
  (py_get d k, filter (fun kv => negb (String.eqb k (fst kv))) d).

Definition is_none (v : json) : bool :=
  match v with JNull => true | _ => false end.

(** Python truthiness. *)
Definition py_truthy (v : json) : bool :=
  match v with
  | JNull => false
  | JBool b => b
  | JInt z => negb (Z.eqb z 0)
  | JFloat f => negb (PrimFloat.eqb f 0%float)   (* nan is truthy *)
  | JStr s => negb (String.eqb s EmptyString)
  | JList l => match l with [] => false | _ => true end
  | JDict d => match d with [] => false | _ => true end
  end.

(** [a or b] *)
Definition py_or (a b : json) : json := if py_truthy a then a else b.

(** ** Exceptions and the handler monad *)

Inductive exc : Type :=
| HTTPException (status : Z) (detail : string)
| ValueError (msg : string)
| JSONDecodeError            (* subclass of ValueError *)
| TypeError (msg : string)
| AttributeError (msg : string)
| OverflowError (msg : string)
| DatabaseError.             (* psycopg2 error raised by the spatial engine *)

Inductive res (A : Type) : Type :=
| Ok (a : A)
| Exn (e : exc).
Arguments Ok {A} a.
Arguments Exn {A} e.

Definition bind {A B} (m : res A) (k : A -> res B) : res B :=
  match m with Ok a => k a | Exn e => Exn e end.

Notation "'let*' x := m 'in' k" := (bind m (fun x => k))
  (at level 200, x name, m at level 100, k at level 200).

(** Python's [isinstance(e, ValueError)]. *)
Definition is_value_error (e : exc) : bool :=
  match e with ValueError _ | JSONDecodeError => true | _ => false end.

(** FastAPI turns an [HTTPException] into its status and any other uncaught
    exception into a 500 response. *)
Definition http_status {A} (r : res A) : Z :=
  match r with
  | Ok _ => 200
  | Exn (HTTPException s _) => s
  | Exn _ => 500
  end.

(** [s.lower()] on ASCII strings; any other value has no [lower]. *)
Definition ascii_lower (c : ascii) : ascii :=
  let n := nat_of_ascii c in
  if (65 <=? n)%nat && (n <=? 90)%nat then ascii_of_nat (n + 32) else c.

Fixpoint string_lower (s : string) : string :=
  match s with
  | EmptyString => EmptyString
  | String c s' => String (ascii_lower c) (string_lower s')
  end.

Definition py_lower (v : json) : res string :=
  match v with
  | JStr s => Ok (string_lower s)
  | _ => Exn (AttributeError "object has no attribute 'lower'")
  end.

(** [int(v)], as [point_in_polygon], [polygon_intersects], [knn] and the
    others apply it to [limit], [k] and [to_epsg].  A float is truncated
    toward zero; infinities and nan cannot be converted. *)
Definition py_int_float (f : float) : res Z :=
  match Prim2SF f with
  | S754_zero _ => Ok 0
  | S754_infinity _ => Exn (OverflowError "cannot convert float infinity to integer")
  | S754_nan => Exn (ValueError "cannot convert float NaN to integer")
  | S754_finite s m e =>
      let mag := if 0 <=? e then Zpos m * 2 ^ e else Z.div (Zpos m) (2 ^ (- e)) in
      Ok (if s then - mag else mag)
  end.

(** Whitespace that [int(str)] strips (the ASCII characters among
    Python's [str.isspace]). *)
Definition py_space (c : ascii) : bool :=
  let n := nat_of_ascii c in
  ((9 <=? n)%nat && (n <=? 13)%nat) || ((28 <=? n)%nat && (n <=? 32)%nat).

Definition digit_val (c : ascii) : option Z :=
  let n := nat_of_ascii c in
  if (48 <=? n)%nat && (n <=? 57)%nat then Some (Z.of_nat n - 48) else None.

Fixpoint drop_space (cs : list ascii) : list ascii :=
  match cs with
  | c :: cs' => if py_space c then drop_space cs' else cs
  | [] => []
  end.

Definition py_strip (cs : list ascii) : list ascii :=
  rev (drop_space (rev (drop_space cs))).

(** Decimal digits, a single underscore allowed between two digits. *)
Fixpoint digits_aux (cs : list ascii) (acc : Z) : option Z :=
  match cs with
  | [] => Some acc
  | c :: cs' =>
      match digit_val c with
      | Some d => digits_aux cs' (acc * 10 + d)
      | None =>
          if Ascii.eqb c "_"%char then
            match cs' with
            | c2 :: cs'' =>
                match digit_val c2 with
                | Some d => digits_aux cs'' (acc * 10 + d)
                | None => None
                end
            | [] => None
            end
          else None
      end
  end.

Definition parse_digits (cs : list ascii) : option Z :=
  match cs with
  | c :: cs' => match digit_val c with Some d => digits_aux cs' d | None => None end
  | [] => None
  end.

Definition parse_int_literal (s : string) : option Z :=
  match py_strip (list_ascii_of_string s) with
  | c :: cs =>
      if Ascii.eqb c "-"%char then option_map Z.opp (parse_digits cs)
      else if Ascii.eqb c "+"%char then parse_digits cs
      else parse_digits (c :: cs)
  | [] => None
  end.

Definition py_int (v : json) : res Z :=
  match v with
  | JNull => Exn (TypeError "int() argument must be a string or a number, not 'NoneType'")
  | JBool b => Ok (if b then 1 else 0)
  | JInt z => Ok z
  | JFloat f => py_int_float f
  | JStr s =>
      match parse_int_literal s with
      | Some z => Ok z
      | None => Exn (ValueError "invalid literal for int() with base 10")
      end
  | JList _ | JDict _ => Exn (TypeError "int() argument must be a string or a number")
  end.

(** ** [db.py]: the Geometry Adapter *)

Definition feature (geometry properties : json) : json :=
  JDict [("type", JStr "Feature"); ("geometry", geometry); ("properties", properties)].

(** [rows_to_featurecollection(rows, geom_key)] *)
Fixpoint rows_features (rows : list dict) (geom_key : string) : list json :=
  match rows with
  | [] => []
  | r :: rows' =>
      let (geom, r') := py_pop r geom_key in
      if is_none geom then rows_features rows' geom_key
      else feature geom (JDict r') :: rows_features rows' geom_key
  end.

Definition rows_to_featurecollection (rows : list dict) (geom_key : string) : json :=
  JDict [("type", JStr "FeatureCollection"); ("features", JList (rows_features rows geom_key))].

(** [one_geom_to_feature(geom_obj, properties=None)]: [properties or {}]. *)
Definition one_geom_to_feature (geom_obj properties : json) : json :=
  feature geom_obj (py_or properties (JDict [])).

(** [parse_geojson_geometry(geojson_obj)]; [json_loads] is Python's
    [json.loads] ([None] when it raises [JSONDecodeError]). *)
Definition parse_geojson_geometry (json_loads : string -> option json) (geojson_obj : json)
  : res json :=
  if is_none geojson_obj then Exn (ValueError "geojson is required") else
  let* obj :=
    match geojson_obj with
    | JStr s => match json_loads s with Some v => Ok v | None => Exn JSONDecodeError end
    | _ => Ok geojson_obj
    end in
  match obj with
  | JDict d =>
      if py_has_key d "type" then
        match py_get d "type" with
        | JStr t => if String.eqb t "Feature" then Ok (py_get d "geometry") else Ok obj
        | _ => Ok obj
        end
      else Exn (ValueError "Invalid GeoJSON: must be a dict with a 'type' field")
  | _ => Exn (ValueError "Invalid GeoJSON: must be a dict with a 'type' field")
  end.

(** ** The spatial engine and the runtime the handlers call *)

(** A PostGIS geometry: its SRID and its GeoJSON form ([ST_AsGeoJSON]). *)
Record geom := mkGeom { g_srid : Z; g_json : json }.

(** [ST_SetSRID(g, s)] *)
Definition st_setsrid (g : geom) (s : Z) : geom := mkGeom s (g_json g).

(** [ST_AsGeoJSON(g)::json] as psycopg2 hands it back: SQL NULL is [None]. *)
Definition as_geojson_col (g : option geom) : json :=
  match g with Some g => g_json g | None => JNull end.

(** A row of FEATURES_TABLE. *)
Record feat_row := mkFeat {
  fr_id : json; fr_osmid : json; fr_element_type : json; fr_name : json;
  fr_tags : json; fr_geom : option geom }.

(** The collaborators of the handlers.  Database operations return [None]
    when the engine raises an error; an inner [option geom] is SQL NULL. *)
Record Engine := mkEngine {
  json_loads : string -> option json;            (* Python's json.loads *)
  REGIONS_TABLE : string;
  FEATURES_TABLE : string;
  features : list feat_row;                      (* contents of FEATURES_TABLE *)
  (* the whole queries of /q/pip, /q/intersects and /q/buffer *)
  pip_query : string -> json -> json -> Z -> option (list dict);
  intersects_query : string -> json -> Z -> option (list dict);
  buffer_query : json -> json -> json -> option json;
  buffer_hits_query : json -> json -> json -> Z -> option (list dict);
  (* primitives *)
  make_point : json -> json -> option geom;      (* ST_SetSRID(ST_MakePoint(x, y), 4326) *)
  dwithin : geom -> geom -> json -> option bool; (* ST_DWithin on geography *)
  geog_distance : geom -> geom -> float;         (* ST_Distance on geography *)
  knn_distance : geom -> geom -> float;          (* the [<->] operator *)
  order_by : forall A, (A -> option float) -> list A -> list A;  (* ORDER BY key ASC *)
  region_geoms : json -> option (list (option geom)); (* geom of rows WHERE id = ANY(ids) *)
  union_agg : list (option geom) -> option (option geom); (* ST_Union over >= 1 row *)
  union_array : list json -> option (option geom);  (* the /q/union geoms query *)
  geom_from_geojson : json -> option (option geom); (* ST_GeomFromGeoJSON(json.dumps(x)) *)
  geog_area : geom -> option float;
  geog_perimeter : geom -> option float;
  st_intersection : geom -> geom -> option geom;
  reproject : Z -> Z -> json -> option json       (* coordinates from one SRID to another *)
}.
Arguments order_by e {A} _ _.

Definition db {A} (o : option A) : res A :=
  match o with Some a => Ok a | None => Exn DatabaseError end.

(** PostgreSQL's order on float8 (by value, [-0 = 0], nan greatest) as an
    integer key, and NULL after every value (ASC NULLS LAST). *)
Definition float8_key (f : float) : Z :=
  match Prim2SF f with
  | S754_zero _ => 0
  | S754_finite s m e => let v := Zpos m * 2 ^ (e + 1074) in if s then - v else v
  | S754_infinity s => if s then - 2 ^ 2200 else 2 ^ 2200
  | S754_nan => 2 ^ 2300
  end.

Definition sql_key (k : option float) : Z :=
  match k with Some f => float8_key f | None => 2 ^ 2400 end.

(** What ORDER BY guarantees: a permutation of its input, sorted by the key. *)
Definition sql_order_by_ok (E : Engine) : Prop :=
  forall A (k : A -> option float) (l : list A),
    Permutation l (order_by E k l) /\
    StronglySorted (fun a b => sql_key (k a) <= sql_key (k b)) (order_by E k l).

(** [LIMIT n] *)
Definition sql_limit {A} (n : Z) (l : list A) : option (list A) :=
  if n <? 0 then None else Some (firstn (Z.to_nat n) l).

Definition st_transform (E : Engine) (g : geom) (srid : Z) : option geom :=
  option_map (mkGeom srid) (reproject E (g_srid g) srid (g_json g)).

(** [ST_SetSRID(ST_GeomFromGeoJSON(%s), 4326)] *)
Definition q_geom (E : Engine) (x : json) : res (option geom) :=
  let* g := db (geom_from_geojson E x) in Ok (option_map (fun g => st_setsrid g 4326) g).

(** [float(x)] of a float8 column. *)
Definition py_float_col (x : option float) : res float :=
  match x with
  | Some f => Ok f
  | None => Exn (TypeError "float() argument must be a string or a real number, not 'NoneType'")
  end.

Fixpoint filterM {A} (p : A -> res bool) (l : list A) : res (list A) :=
  match l with
  | [] => Ok []
  | x :: l' =>
      let* b := p x in let* r := filterM p l' in Ok (if b then x :: r else r)
  end.

Fixpoint mapM {A B} (f : A -> res B) (l : list A) : res (list B) :=
  match l with
  | [] => Ok []
  | x :: l' => let* y := f x in let* r := mapM f l' in Ok (y :: r)
  end.

(** [for g in v] *)
Definition py_iter (v : json) : res (list json) :=
  match v with
  | JList l => Ok l
  | JStr s => Ok (map (fun c => JStr (String c EmptyString)) (list_ascii_of_string s))
  | JDict d => Ok (map (fun kv => JStr (fst kv)) d)
  | _ => Exn (TypeError "object is not iterable")
  end.

(** ** [main.py]: the handlers *)

(** The output row of the /q/within-distance and /q/knn queries:
    [id, osmid, element_type, name, tags, dist_m, geom_geojson]. *)
Definition dist_row (f : feat_row) (dist : option float) : dict :=
  [("id", fr_id f); ("osmid", fr_osmid f); ("element_type", fr_element_type f);
   ("name", fr_name f); ("tags", fr_tags f);
   ("dist_m", match dist with Some d => JFloat d | None => JNull end);
   ("geom_geojson", as_geojson_col (fr_geom f))].

(** [ST_Distance(geom::geography, p.pt::geography)], NULL for a NULL geom. *)
Definition row_dist (E : Engine) (pt : geom) (f : feat_row) : option float :=
  option_map (fun g => geog_distance E g pt) (fr_geom f).

(** The SQL of [within_distance]:
    [WHERE ST_DWithin(...) ORDER BY dist_m LIMIT %s]. *)
Definition within_query (E : Engine) (lon lat radius_m : json) (limit : Z) : res (list dict) :=
  let* pt := db (make_point E lon lat) in
  let* hits := filterM (fun f => match fr_geom f with
                                 | Some g => db (dwithin E g pt radius_m)
                                 | None => Ok false      (* NULL is not true *)
                                 end) (features E) in
  let* top := db (sql_limit limit (order_by E (row_dist E pt) hits)) in
  Ok (map (fun f => dist_row f (row_dist E pt f)) top).

(** [geom <-> p.pt], NULL for a NULL geom. *)
Definition knn_key (E : Engine) (pt : geom) (f : feat_row) : option float :=
  option_map (fun g => knn_distance E g pt) (fr_geom f).

(** The SQL of [knn]: [ORDER BY geom <-> p.pt LIMIT %s]. *)
Definition knn_query (E : Engine) (lon lat : json) (k : Z) : res (list dict) :=
  let* pt := db (make_point E lon lat) in
  let* top := db (sql_limit k (order_by E (knn_key E pt) (features E))) in
  Ok (map (fun f => dist_row f (row_dist E pt f)) top).

(** [(payload.get("source") or "features").lower()] *)
Definition source_of (payload : dict) : res string :=
  py_lower (py_or (py_get payload "source") (JStr "features")).

(** [REGIONS_TABLE if source == "regions" else FEATURES_TABLE] *)
Definition table_of (E : Engine) (source : string) : string :=
  if String.eqb source "regions" then REGIONS_TABLE E else FEATURES_TABLE E.

(** 1) [point_in_polygon] *)
Definition point_in_polygon (E : Engine) (payload : dict) : res json :=
  let lon := py_get payload "lon" in
  let lat := py_get payload "lat" in
  let* source := source_of payload in
  let* limit := py_int (py_get_default payload "limit" (JInt 200)) in
  if is_none lon || is_none lat then Exn (HTTPException 400 "lon/lat required") else
  let table := table_of E source in
  let* rows := db (pip_query E table lon lat limit) in
  Ok (rows_to_featurecollection rows "geom_geojson").

(** 2) [polygon_intersects] *)
Definition polygon_intersects (E : Engine) (payload : dict) : res json :=
  let geojson := py_get payload "geojson" in
  let* geom := parse_geojson_geometry (json_loads E) geojson in
  let* source := source_of payload in
  let* limit := py_int (py_get_default payload "limit" (JInt 500)) in
  let table := table_of E source in
  let* rows := db (intersects_query E table geom limit) in
  Ok (rows_to_featurecollection rows "geom_geojson").

(** 3) [within_distance] *)
Definition within_distance (E : Engine) (payload : dict) : res json :=
  let lon := py_get payload "lon" in
  let lat := py_get payload "lat" in
  let radius_m := py_get payload "radius_m" in
  let* limit := py_int (py_get_default payload "limit" (JInt 500)) in
  if is_none lon || is_none lat || is_none radius_m then
    Exn (HTTPException 400 "lon/lat/radius_m required") else
  let* rows := within_query E lon lat radius_m limit in
  Ok (rows_to_featurecollection rows "geom_geojson").

(** 4) [buffer_analysis] *)
Definition buffer_analysis (E : Engine) (payload : dict) : res json :=
  let lon := py_get payload "lon" in
  let lat := py_get payload "lat" in
  let buffer_m := py_get payload "buffer_m" in
  let* limit := py_int (py_get_default payload "limit" (JInt 1000)) in
  if is_none lon || is_none lat || is_none buffer_m then
    Exn (HTTPException 400 "lon/lat/buffer_m required") else
  let* buf_geom := db (buffer_query E lon lat buffer_m) in
  let* rows := db (buffer_hits_query E lon lat buffer_m limit) in
  Ok (JDict [("buffer", one_geom_to_feature buf_geom (JDict [("buffer_m", buffer_m)]));
             ("hits", rows_to_featurecollection rows "geom_geojson")]).

(** 5) [polygon_area]: [ST_Area(q.g::geography) AS area_m2,
    ST_Area(q.g::geography)/1e6 AS area_km2]. *)
Definition polygon_area (E : Engine) (payload : dict) : res json :=
  let geojson := py_get payload "geojson" in
  let* geom := parse_geojson_geometry (json_loads E) geojson in
  let* g := q_geom E geom in
  let* area := match g with
               | Some g => let* a := db (geog_area E g) in Ok (Some a)
               | None => Ok None
               end in
  let area_m2 := area in
  let area_km2 := option_map (fun a => (a / 1e6)%float) area in
  let* m2 := py_float_col area_m2 in
  let* km2 := py_float_col area_km2 in
  Ok (JDict [("area_m2", JFloat m2); ("area_km2", JFloat km2)]).

(** 6) [polygon_perimeter]: [.../1000 AS perim_km]. *)
Definition polygon_perimeter (E : Engine) (payload : dict) : res json :=
  let geojson := py_get payload "geojson" in
  let* geom := parse_geojson_geometry (json_loads E) geojson in
  let* g := q_geom E geom in
  let* perim := match g with
                | Some g => let* p := db (geog_perimeter E g) in Ok (Some p)
                | None => Ok None
                end in
  let perim_m := perim in
  let perim_km := option_map (fun p => (p / 1000)%float) perim in
  let* m := py_float_col perim_m in
  let* km := py_float_col perim_km in
  Ok (JDict [("perimeter_m", JFloat m); ("perimeter_km", JFloat km)]).

(** 7) [knn] *)
Definition knn (E : Engine) (payload : dict) : res json :=
  let lon := py_get payload "lon" in
  let lat := py_get payload "lat" in
  let* k := py_int (py_get_default payload "k" (JInt 10)) in
  if is_none lon || is_none lat then Exn (HTTPException 400 "lon/lat required") else
  let* rows := knn_query E lon lat k in
  Ok (rows_to_featurecollection rows "geom_geojson").

(** 8) [union_polygons].  By ids: [SELECT ST_AsGeoJSON(ST_Union(geom))::json
    FROM REGIONS_TABLE WHERE id = ANY(%s)]; an aggregate over zero rows is
    NULL, and it always yields one row, so [not row] never holds. *)
Definition union_by_ids (E : Engine) (region_ids : json) : res json :=
  let* gs := db (region_geoms E region_ids) in
  let* u := match gs with
            | [] => Ok None
            | _ => db (union_agg E gs)
            end in
  Ok (as_geojson_col u).

Definition union_polygons (E : Engine) (payload : dict) : res json :=
  let region_ids := py_get payload "region_ids" in
  let geoms := py_get payload "geoms" in
  if py_truthy region_ids then
    let* row0 := union_by_ids E region_ids in
    if is_none row0 then Exn (HTTPException 404 "No geometries found for given region_ids")
    else Ok (one_geom_to_feature row0
               (JDict [("source", JStr "regions"); ("region_ids", region_ids)]))
  else if py_truthy geoms then
    let* items := py_iter geoms in
    let* geom_list := mapM (parse_geojson_geometry (json_loads E)) items in
    let* u := db (union_array E geom_list) in
    Ok (one_geom_to_feature (as_geojson_col u)
          (JDict [("source", JStr "geoms"); ("count", JInt (Z.of_nat (List.length geom_list)))]))
  else Exn (HTTPException 400 "Provide region_ids or geoms").

(** 9) [intersection]: [ST_AsGeoJSON(ST_Intersection(a, b))::json] and
    [ST_Area(ST_Intersection(a, b)::geography)]; both NULL when an input is
    NULL. *)
Definition intersection_row (E : Engine) (ga gb : json) : res (json * option float) :=
  let* qa := q_geom E ga in
  let* qb := q_geom E gb in
  let* i := match qa, qb with
            | Some a, Some b => let* g := db (st_intersection E a b) in Ok (Some g)
            | _, _ => Ok None
            end in
  let* area := match i with
               | Some g => let* x := db (geog_area E g) in Ok (Some x)
               | None => Ok None
               end in
  Ok (as_geojson_col i, area).

Definition intersection (E : Engine) (payload : dict) : res json :=
  let a := py_get payload "a" in
  let b := py_get payload "b" in
  if is_none a || is_none b then
    Exn (HTTPException 400 "Provide a and b (GeoJSON geometry or Feature)") else
  let* ga := parse_geojson_geometry (json_loads E) a in
  let* gb := parse_geojson_geometry (json_loads E) b in
  let* row := intersection_row E ga gb in
  let (geom_geojson, area_m2) := row in
  if is_none geom_geojson then
    Ok (JDict [("type", JStr "Feature"); ("geometry", JNull);
               ("properties", JDict [("area_m2", JFloat 0%float)])])
  else
    let* a2 := py_float_col area_m2 in
    Ok (one_geom_to_feature geom_geojson (JDict [("area_m2", JFloat a2)])).

(** 10) [transform]: [ST_AsGeoJSON(q.g)::json AS geom_wgs84,
    ST_AsGeoJSON(ST_Transform(q.g, %s))::json AS geom_transformed]. *)
Definition transform (E : Engine) (payload : dict) : res json :=
  let geojson := py_get payload "geojson" in
  let* to_epsg := py_int (py_get_default payload "to_epsg" (JInt 3857)) in
  let* geom := parse_geojson_geometry (json_loads E) geojson in
  let* g := q_geom E geom in
  let* t := match g with
            | Some g => let* t := db (st_transform E g to_epsg) in Ok (Some t)
            | None => Ok None
            end in
  let geom_wgs84 := as_geojson_col g in
  let geom_transformed := as_geojson_col t in
  Ok (one_geom_to_feature geom_wgs84
        (JDict [("to_epsg", JInt to_epsg); ("geom_transformed", geom_transformed)])).

(** ** A concrete engine, used to run the handlers on sample requests *)

Fixpoint insert_by {A} (k : A -> Z) (x : A) (l : list A) : list A :=
  match l with
  | [] => [x]
  | y :: l' => if k x <=? k y then x :: l else y :: insert_by k x l'
  end.

Fixpoint isort_by {A} (k : A -> Z) (l : list A) : list A :=
  match l with
  | [] => []
  | x :: l' => insert_by k x (isort_by k l')
  end.

(** Point coordinates of a GeoJSON Point. *)
Definition point_xy (g : geom) : float * float :=
  match g_json g with
  | JDict d =>
      match py_get d "coordinates" with
      | JList [JFloat x; JFloat y] => (x, y)
      | _ => (0%float, 0%float)
      end
  | _ => (0%float, 0%float)
  end.

Definition point_json (x y : json) : json :=
  JDict [("type", JStr "Point"); ("coordinates", JList [x; y])].

Definition empty_collection : json :=
  JDict [("type", JStr "GeometryCollection"); ("geometries", JList [])].

(** Planar distance in degrees, as [<->] on SRID 4326 geometries. *)
Definition planar_dist (a b : geom) : float :=
  let (xa, ya) := point_xy a in let (xb, yb) := point_xy b in
  let dx := (xa - xb)%float in let dy := (ya - yb)%float in
  PrimFloat.sqrt (dx * dx + dy * dy)%float.

(** Geodesic distance near latitude 60 (equirectangular approximation on the
    mean sphere, cos 60 = 0.5); it agrees with PostGIS to well under 1% over
    the few hundred metres of the samples. *)
Definition geodesic_dist_60 (a b : geom) : float :=
  let (xa, ya) := point_xy a in let (xb, yb) := point_xy b in
  let dx := ((xa - xb) * 0.5)%float in let dy := (ya - yb)%float in
  (6371008.8 * 0.017453292519943295 * PrimFloat.sqrt (dx * dx + dy * dy))%float.

Definition is_areal (g : geom) : bool :=
  match g_json g with
  | JDict d => match py_get d "type" with
               | JStr t => String.eqb t "Polygon" || String.eqb t "MultiPolygon"
               | _ => false
               end
  | _ => false
  end.

Definition sample_engine (feats : list feat_row) : Engine := {|
  json_loads := fun _ => None;
  REGIONS_TABLE := "regions";
  FEATURES_TABLE := "osm_spb_features";
  features := feats;
  pip_query := fun _ _ _ _ => Some [];
  intersects_query := fun _ _ _ => Some [];
  buffer_query := fun _ _ _ => Some JNull;
  buffer_hits_query := fun _ _ _ _ => Some [];
  make_point := fun x y => Some (mkGeom 4326 (point_json x y));
  dwithin := fun g pt r =>
    match r with JFloat r => Some (PrimFloat.leb (geodesic_dist_60 g pt) r) | _ => None end;
  geog_distance := geodesic_dist_60;
  knn_distance := planar_dist;
  order_by := fun A k l => isort_by (fun a => sql_key (k a)) l;
  region_geoms := fun _ => Some [];
  union_agg := fun gs => match gs with g :: _ => Some g | [] => None end;
  union_array := fun _ => Some None;
  geom_from_geojson := fun x => Some (Some (mkGeom 4326 x));
  geog_area := fun g => Some (if is_areal g then 12345678.9 else 0)%float;
  geog_perimeter := fun g => Some (if is_areal g then 15000.25 else 0)%float;
  (* points: their common point, or GEOMETRYCOLLECTION EMPTY when disjoint *)
  st_intersection := fun a b =>
    let (xa, ya) := point_xy a in let (xb, yb) := point_xy b in
    Some (if PrimFloat.eqb xa xb && PrimFloat.eqb ya yb then a
          else mkGeom (g_srid a) empty_collection);
  reproject := fun _ _ j => Some j
|}.

(** ** Observers used in the statements *)

Definition is_exn {A} (r : res A) : bool :=
  match r with Exn _ => true | Ok _ => false end.

(** The value [parse_geojson_geometry] inspects: a string is decoded first. *)
Definition decoded (json_loads : string -> option json) (v : json) : option json :=
  match v with JStr s => json_loads s | _ => Some v end.

(** [obj.get("type") == "Feature"] *)
Definition feature_tag (v : json) : bool :=
  match v with JStr t => String.eqb t "Feature" | _ => false end.

Definition geometry_of (f : json) : json :=
  match f with JDict d => py_get d "geometry" | _ => JNull end.

Ltac res_inv H :=
  unfold bind in H;
  repeat (match goal with
          | Hx : context [match ?x with Ok _ => _ | Exn _ => _ end] |- _ =>
              let E := fresh "E" in destruct x eqn:E
          | Hx : context [match ?x with Some _ => _ | None => _ end] |- _ =>
              let E := fresh "E" in destruct x eqn:E
          | Hx : Ok _ = Ok _ |- _ => injection Hx as Hx; subst
          | Hx : Some _ = Some _ |- _ => injection Hx as Hx; subst
          | Hx : Exn _ = Ok _ |- _ => discriminate Hx
          | Hx : Ok _ = Exn _ |- _ => discriminate Hx
          | Hx : None = Some _ |- _ => discriminate Hx
          | Hx : Some _ = None |- _ => discriminate Hx
          end; simpl in * ).

(** Exact value of a finite float as [num / den]; [None] for inf and nan. *)
Definition float_exact (f : float) : option (Z * Z) :=
  match Prim2SF f with
  | S754_zero _ => Some (0, 1)
  | S754_finite s m e =>
      Some ((if s then Zneg m else Zpos m) * 2 ^ Z.max e 0, 2 ^ Z.max (- e) 0)
  | _ => None
  end.

(** The features of a FeatureCollection answer. *)
Definition fc_features (out : json) : list json :=
  match out with
  | JDict d => match py_get d "features" with JList l => l | _ => [] end
  | _ => []
  end.

(** The [dist_m] property of a feature, [None] when it is not a float. *)
Definition feature_dist (f : json) : option float :=
  match f with
  | JDict d =>
      match py_get d "properties" with
      | JDict pr => match py_get pr "dist_m" with JFloat x => Some x | _ => None end
      | _ => None
      end
  | _ => None
  end.

(** The feature [rows_to_featurecollection] makes of a distance row. *)
Definition dist_feature (E : Engine) (pt : geom) (f : feat_row) : json :=
  feature (as_geojson_col (fr_geom f))
          (JDict (snd (py_pop (dist_row f (row_dist E pt f)) "geom_geojson"))).

Definition has_geom (f : feat_row) : bool := negb (is_none (as_geojson_col (fr_geom f))).

(** A feature row with a (non-NULL) geometry. *)
Definition geom_present (f : feat_row) : bool :=
  match fr_geom f with Some _ => true | None => false end.

(** The rows the [ST_DWithin] filter of [within_distance] keeps. *)
Definition in_radius (E : Engine) (pt : geom) (radius_m : json) (f : feat_row) : bool :=
  match fr_geom f with
  | Some g => match dwithin E g pt radius_m with Some b => b | None => false end
  | None => false
  end.

(** Two features near Saint Petersburg and a KNN request at (30.0, 60.0):
    A lies 0.01 degree east (about 556 m), B 0.006 degree north (about
    667 m); in degrees B is the nearer. *)
Definition feat_A : feat_row :=
  mkFeat (JInt 1) (JInt 101) (JStr "node") (JStr "A") JNull
         (Some (mkGeom 4326 (point_json (JFloat 30.01) (JFloat 60.0)))).

Definition feat_B : feat_row :=
  mkFeat (JInt 2) (JInt 102) (JStr "node") (JStr "B") JNull
         (Some (mkGeom 4326 (point_json (JFloat 30.0) (JFloat 60.006)))).

Definition knn_request : dict := [("lon", JFloat 30.0); ("lat", JFloat 60.0); ("k", JInt 2)].

(** A within-distance request of 600 m around (30.0, 60.0): A is inside,
    B outside. *)
Definition within_request : dict :=
  [("lon", JFloat 30.0); ("lat", JFloat 60.0); ("radius_m", JFloat 600.0); ("limit", JInt 5)].

(** A feature row whose geometry is NULL. *)
Definition feat_N : feat_row := mkFeat (JInt 3) (JInt 103) (JStr "way") (JStr "N") JNull None.

(** The sample engine whose REGIONS_TABLE answers every id list with [gs]. *)
Definition sample_engine_regions (gs : list (option geom)) : Engine :=
  let S := sample_engine [] in {|
  json_loads := json_loads S;
  REGIONS_TABLE := REGIONS_TABLE S;
  FEATURES_TABLE := FEATURES_TABLE S;
  features := features S;
  pip_query := pip_query S;
  intersects_query := intersects_query S;
  buffer_query := buffer_query S;
  buffer_hits_query := buffer_hits_query S;
  make_point := make_point S;
  dwithin := dwithin S;
  geog_distance := geog_distance S;
  knn_distance := knn_distance S;
  order_by := fun A => order_by S (A := A);
  region_geoms := fun _ => Some gs;
  union_agg := union_agg S;
  union_array := union_array S;
  geom_from_geojson := geom_from_geojson S;
  geog_area := geog_area S;
  geog_perimeter := geog_perimeter S;
  st_intersection := st_intersection S;
  reproject := reproject S
|}.

(** ** Sample runs *)

Example py_int_trunc_pos : py_int (JFloat 3.7%float) = Ok 3.
Proof. vm_compute. reflexivity. Qed.
Example py_int_trunc_neg : py_int (JFloat (-3.7)%float) = Ok (-3).
Proof. vm_compute. reflexivity. Qed.
Example py_int_str : py_int (JStr " -1_000 ") = Ok (-1000).
Proof. vm_compute. reflexivity. Qed.
Example py_int_str_bad : py_int (JStr "1__0") = Exn (ValueError "invalid literal for int() with base 10").
Proof. vm_compute. reflexivity. Qed.

(** ** Lemmas on the adapter *)

Lemma py_get_pop (r : dict) (gk k : string) :
  py_get (snd (py_pop r gk)) k = if String.eqb gk k then JNull else py_get r k.
Proof.
  unfold py_pop; simpl.
  induction r as [|[k' v] r IH]; simpl.
  - destruct (String.eqb gk k); reflexivity.
  - destruct (String.eqb_spec gk k') as [<-|Hne]; simpl.
    + rewrite IH. destruct (String.eqb_spec gk k) as [->|Hk]; simpl.
      * reflexivity.
      * apply String.eqb_neq in Hk. rewrite String.eqb_sym in Hk. now rewrite Hk.
    + destruct (String.eqb_spec k k') as [->|Hk].
      * apply String.eqb_neq in Hne. now rewrite Hne.
      * exact IH.
Qed.

Lemma py_has_key_pop (r : dict) (gk : string) :
  py_has_key (snd (py_pop r gk)) gk = false.
Proof.
  unfold py_pop; simpl.
  induction r as [|[k' v] r IH]; simpl; [reflexivity|].
  destruct (String.eqb_spec gk k') as [->|Hne]; simpl; [exact IH|].
  apply String.eqb_neq in Hne. now rewrite Hne, IH.
Qed.

Lemma rows_features_filter_map (rows : list dict) (gk : string) :
  rows_features rows gk =
  map (fun r => feature (py_get r gk) (JDict (snd (py_pop r gk))))
      (filter (fun r => negb (is_none (py_get r gk))) rows).
Proof.
  induction rows as [|r rows IH]; simpl; [reflexivity|].
  destruct (is_none (py_get r gk)); simpl; rewrite IH; reflexivity.
Qed.

Lemma StronglySorted_filter {A} (R : A -> A -> Prop) (p : A -> bool) (l : list A) :
  StronglySorted R l -> StronglySorted R (filter p l).
Proof.
  induction l as [|x l IH]; simpl; intros H; [constructor|].
  inversion H as [|? ? Hs Hf]; subst.
  destruct (p x); [constructor|]; auto.
  rewrite Forall_forall in *. intros y Hy. apply filter_In in Hy. apply Hf, Hy.
Qed.

Lemma in_firstn_in {A} (n : nat) (l : list A) (y : A) : In y (firstn n l) -> In y l.
Proof.
  intros H. rewrite <- (firstn_skipn n l). apply in_or_app. now left.
Qed.

Lemma StronglySorted_firstn {A} (R : A -> A -> Prop) (n : nat) (l : list A) :
  StronglySorted R l -> StronglySorted R (firstn n l).
Proof.
  revert l; induction n as [|n IH]; intros [|x l] H; simpl; try apply SSorted_nil.
  inversion H as [|? ? Hs Hf]; subst.
  constructor; [auto|].
  rewrite Forall_forall in *. intros y Hy. apply Hf. eapply in_firstn_in, Hy.
Qed.

Lemma StronglySorted_map {A B} (R : B -> B -> Prop) (f : A -> B) (l : list A) :
  StronglySorted (fun a b => R (f a) (f b)) l -> StronglySorted R (map f l).
Proof.
  induction l as [|x l IH]; simpl; intros H; [constructor|].
  inversion H as [|? ? Hs Hf]; subst. constructor; [auto|].
  rewrite Forall_forall in *. intros y Hy. apply in_map_iff in Hy as [z [<- Hz]]. auto.
Qed.

(** ** The sample engine's ORDER BY is a valid one *)

Lemma insert_by_perm {A} (k : A -> Z) (x : A) (l : list A) :
  Permutation (x :: l) (insert_by k x l).
Proof.
  induction l as [|y l IH]; simpl; [reflexivity|].
  destruct (k x <=? k y); [reflexivity|].
  transitivity (y :: x :: l); [apply perm_swap|]. now constructor.
Qed.

Lemma isort_by_perm {A} (k : A -> Z) (l : list A) : Permutation l (isort_by k l).
Proof.
  induction l as [|x l IH]; simpl; [constructor|].
  transitivity (x :: isort_by k l); [now constructor|apply insert_by_perm].
Qed.

Lemma insert_by_sorted {A} (k : A -> Z) (x : A) (l : list A) :
  StronglySorted (fun a b => k a <= k b) l ->
  StronglySorted (fun a b => k a <= k b) (insert_by k x l).
Proof.
  induction l as [|y l IH]; simpl; intros H.
  - repeat constructor.
  - inversion H as [|? ? Hs Hf]; subst.
    destruct (Z.leb_spec (k x) (k y)) as [Hxy|Hxy].
    + constructor; [exact H|]. constructor; [exact Hxy|].
      rewrite Forall_forall in *. intros z Hz. specialize (Hf z Hz). lia.
    + constructor; [auto|]. rewrite Forall_forall in *. intros z Hz.
      apply (Permutation_in _ (Permutation_sym (insert_by_perm k x l))) in Hz.
      destruct Hz as [<-|Hz]; [lia|auto].
Qed.

Lemma isort_by_sorted {A} (k : A -> Z) (l : list A) :
  StronglySorted (fun a b => k a <= k b) (isort_by k l).
Proof.
  induction l as [|x l IH]; simpl; [constructor|]. now apply insert_by_sorted.
Qed.

Lemma sample_engine_order_ok (feats : list feat_row) :
  sql_order_by_ok (sample_engine feats).
Proof.
  intros A k l; simpl. split.
  - apply isort_by_perm.
  - apply (isort_by_sorted (fun a => sql_key (k a))).
Qed.

(** ** Claims *)

(** C1 (code bug).  A request to /q/area, /q/perimeter, /q/intersects or
    /q/transform without [geojson] does not fail with a client error naming
    the field: [parse_geojson_geometry] raises a plain [ValueError], which
    FastAPI answers with a 500 server error, whereas the handlers that check
    their fields themselves (here /q/knn) answer 400 naming them. *)
Theorem missing_geojson_is_server_error (E : Engine) :
  polygon_area E [] = Exn (ValueError "geojson is required") /\
  http_status (polygon_area E []) = 500 /\
  http_status (polygon_perimeter E []) = 500 /\
  http_status (polygon_intersects E []) = 500 /\
  http_status (transform E []) = 500 /\
  knn E [] = Exn (HTTPException 400 "lon/lat required").
Proof. repeat split; reflexivity. Qed.

(** C5.  [parse_geojson_geometry] fails exactly when its input is [None],
    or when (after decoding a string with [json.loads]) it is not a dict
    carrying a ["type"] key, a string that does not decode counting as not
    a mapping; every failure is a [ValueError] ([JSONDecodeError] is one).
    On success the decoded dict is a Feature, whose ["geometry"] value
    (possibly [None]) is returned, or is returned itself unchanged. *)
Theorem parse_geojson_geometry_contract (json_loads : string -> option json) (v : json) :
  (is_exn (parse_geojson_geometry json_loads v) = true <->
     (v = JNull \/
      forall d, decoded json_loads v = Some (JDict d) -> py_has_key d "type" = false)) /\
  (forall e, parse_geojson_geometry json_loads v = Exn e -> is_value_error e = true) /\
  (forall r, parse_geojson_geometry json_loads v = Ok r ->
     exists d, decoded json_loads v = Some (JDict d) /\ py_has_key d "type" = true /\
       r = (if feature_tag (py_get d "type") then py_get d "geometry" else JDict d)).
Proof.
  assert (Hpar : parse_geojson_geometry json_loads v =
    if is_none v then Exn (ValueError "geojson is required") else
    match decoded json_loads v with
    | None => Exn JSONDecodeError
    | Some o =>
        match o with
        | JDict d => if py_has_key d "type"
                     then Ok (if feature_tag (py_get d "type") then py_get d "geometry" else o)
                     else Exn (ValueError "Invalid GeoJSON: must be a dict with a 'type' field")
        | _ => Exn (ValueError "Invalid GeoJSON: must be a dict with a 'type' field")
        end
    end).
  { unfold parse_geojson_geometry, bind.
    destruct v as [| | | |s| |d]; simpl; try reflexivity;
      [destruct (json_loads s) as [[| | | | | |d]|]; try reflexivity|];
      (destruct (py_has_key d "type"); [|reflexivity]);
      (destruct (py_get d "type"); try reflexivity); simpl;
      (destruct (String.eqb _ _); reflexivity). }
  rewrite Hpar. clear Hpar.
  destruct (is_none v) eqn:Hn.
  - destruct v; try discriminate Hn. simpl.
    split; [split; [intros _; left; reflexivity|intros _; reflexivity]|split].
    + intros e H. inversion H. reflexivity.
    + intros r H. discriminate H.
  - assert (Hv : v <> JNull) by (intros ->; discriminate Hn).
    destruct (decoded json_loads v) as [o|] eqn:Hd.
    + destruct o as [| | | | | |kvs]; simpl;
        try (split; [split; [intros _; right; intros d Hd'; discriminate Hd'|reflexivity]|];
             split; intros ? H; inversion H; reflexivity).
      destruct (py_has_key kvs "type") eqn:Hk; simpl.
      * split; [split; [discriminate|]|split].
        -- intros [->|H]; [contradiction|]. specialize (H kvs eq_refl). congruence.
        -- intros e H; discriminate H.
        -- intros r H. inversion H; subst. exists kvs. auto.
      * split; [split; [intros _; right; intros d Hd'; inversion Hd'; subst; exact Hk|reflexivity]|].
        split; intros ? H; inversion H; reflexivity.
    + simpl. split; [split; [intros _; right; intros d Hd'; discriminate Hd'|reflexivity]|].
      split; intros ? H; inversion H; reflexivity.
Qed.

(** C6.  [rows_to_featurecollection] keeps, in their order, exactly the rows
    whose geometry column is present and not null, so no feature has a null
    geometry; each feature's properties are the row without the geometry
    column: every other column with its value unchanged, in the row's order. *)
Theorem rows_to_featurecollection_spec (rows : list dict) (gk : string) :
  rows_to_featurecollection rows gk =
    JDict [("type", JStr "FeatureCollection");
           ("features",
            JList (map (fun r => feature (py_get r gk)
                                   (JDict (filter (fun kv => negb (String.eqb gk (fst kv))) r)))
                       (filter (fun r => negb (is_none (py_get r gk))) rows)))] /\
  Forall (fun f => is_none (geometry_of f) = false) (rows_features rows gk) /\
  (forall r k, py_get (snd (py_pop r gk)) k = if String.eqb gk k then JNull else py_get r k) /\
  (forall r, py_has_key (snd (py_pop r gk)) gk = false).
Proof.
  split; [|split; [|split]].
  - unfold rows_to_featurecollection. rewrite rows_features_filter_map. reflexivity.
  - rewrite rows_features_filter_map. apply Forall_forall. intros f Hf.
    apply in_map_iff in Hf as [r [<- Hr]]. apply filter_In in Hr as [_ Hr].
    simpl. destruct (is_none (py_get r gk)); [discriminate Hr|reflexivity].
  - intros r k. apply py_get_pop.
  - intros r. apply py_has_key_pop.
Qed.

(** C7.  A successful /q/area answer has [area_km2 = area_m2 / 1e6] and a
    successful /q/perimeter answer [perimeter_km = perimeter_m / 1000], as
    binary64 divisions of the very value reported in metres. *)
Theorem area_perimeter_km_derived (E : Engine) (p : dict) :
  (forall out, polygon_area E p = Ok out ->
     exists m2, out = JDict [("area_m2", JFloat m2); ("area_km2", JFloat (m2 / 1e6)%float)]) /\
  (forall out, polygon_perimeter E p = Ok out ->
     exists m, out = JDict [("perimeter_m", JFloat m); ("perimeter_km", JFloat (m / 1000)%float)]).
Proof.
  split; intros out H.
  - unfold polygon_area, q_geom, py_float_col in H. res_inv H.
    all: eauto.
  - unfold polygon_perimeter, q_geom, py_float_col in H. res_inv H.
    all: eauto.
Qed.

(** C8.  A successful /q/transform answer is a Feature whose geometry is the
    parsed input geometry with SRID 4326, and whose properties hold the
    [to_epsg] used ([int] of the request's value, 3857 when absent) and the
    geometry reprojected to it by [ST_Transform] (SRID [to_epsg]); when the
    engine reads the input as NULL both geometries are null. *)
Theorem transform_keeps_wgs84_geometry (E : Engine) (p : dict) (out : json) :
  transform E p = Ok out ->
  exists to_epsg geom,
    py_int (py_get_default p "to_epsg" (JInt 3857)) = Ok to_epsg /\
    (py_has_key p "to_epsg" = false -> to_epsg = 3857) /\
    parse_geojson_geometry (json_loads E) (py_get p "geojson") = Ok geom /\
    ((exists g0 t,
        geom_from_geojson E geom = Some (Some g0) /\
        st_transform E (st_setsrid g0 4326) to_epsg = Some t /\
        g_srid (st_setsrid g0 4326) = 4326 /\ g_srid t = to_epsg /\
        out = feature (g_json (st_setsrid g0 4326))
                (JDict [("to_epsg", JInt to_epsg); ("geom_transformed", g_json t)])) \/
     (geom_from_geojson E geom = Some None /\
      out = feature JNull (JDict [("to_epsg", JInt to_epsg); ("geom_transformed", JNull)]))).
Proof.
  intros H. unfold transform, q_geom, db in H.
  destruct (py_int (py_get_default p "to_epsg" (JInt 3857))) as [z|e] eqn:Hz;
    [|discriminate H].
  destruct (parse_geojson_geometry (json_loads E) (py_get p "geojson")) as [geom|e] eqn:Hg;
    [|discriminate H].
  exists z, geom. split; [reflexivity|]. split.
  { unfold py_get_default in Hz. intros Hk. rewrite Hk in Hz. injection Hz as Hz. lia. }
  split; [reflexivity|]. simpl in H.
  destruct (geom_from_geojson E geom) as [[g0|]|] eqn:Hf; simpl in H; [| |discriminate H].
  - left. destruct (st_transform E (st_setsrid g0 4326) z) as [t|] eqn:Ht;
      simpl in H; [|discriminate H].
    exists g0, t. injection H as <-.
    split; [first [exact Hf|reflexivity]|]. split; [first [exact Ht|reflexivity]|]. split; [reflexivity|]. split; [|reflexivity].
    unfold st_transform in Ht. destruct (reproject _ _ _ _); simpl in Ht; [|discriminate Ht].
    injection Ht as <-. reflexivity.
  - right. injection H as <-. split; [first [exact Hf|reflexivity]|reflexivity].
Qed.

(** C2, counterexample.  [region_ids = []] is falsy, so with no [geoms] the
    request is the 400 caller error, not a not-found. *)
Lemma union_empty_region_ids_is_400 :
  union_polygons (sample_engine []) [("region_ids", JList [])] =
    Exn (HTTPException 400 "Provide region_ids or geoms") /\
  http_status (union_polygons (sample_engine []) [("region_ids", JList [])]) = 400.
Proof. split; reflexivity. Qed.

(** C2 (amended).  With a truthy (non-empty) [region_ids], an id match
    whose union is NULL, in particular one matching zero stored rows, is
    the 404 not-found error; when neither [region_ids] nor [geoms] is truthy
    (absent, null or empty, so [region_ids = []] included) the request is
    the 400 caller error. *)
Theorem union_not_found_vs_missing (E : Engine) (p : dict) :
  (py_truthy (py_get p "region_ids") = true ->
   union_by_ids E (py_get p "region_ids") = Ok JNull ->
   union_polygons E p = Exn (HTTPException 404 "No geometries found for given region_ids")) /\
  (py_truthy (py_get p "region_ids") = true ->
   region_geoms E (py_get p "region_ids") = Some [] ->
   union_polygons E p = Exn (HTTPException 404 "No geometries found for given region_ids")) /\
  (py_truthy (py_get p "region_ids") = false ->
   py_truthy (py_get p "geoms") = false ->
   union_polygons E p = Exn (HTTPException 400 "Provide region_ids or geoms")).
Proof.
  assert (H404 : py_truthy (py_get p "region_ids") = true ->
                 union_by_ids E (py_get p "region_ids") = Ok JNull ->
                 union_polygons E p =
                   Exn (HTTPException 404 "No geometries found for given region_ids")).
  { intros Ht Hu. unfold union_polygons. rewrite Ht. simpl. rewrite Hu. reflexivity. }
  split; [exact H404|split].
  - intros Ht Hz. apply H404; [exact Ht|].
    unfold union_by_ids, db. rewrite Hz. reflexivity.
  - intros Hr Hg. unfold union_polygons. rewrite Hr, Hg. reflexivity.
Qed.

(** C3 (code bug).  Two disjoint points: PostGIS's [ST_Intersection] is
    the empty (not NULL) GEOMETRYCOLLECTION, whose GeoJSON is an object, so
    the [geom_geojson is None] guard of [intersection] does not fire and the
    answer is a Feature with that empty geometry and [area_m2 = 0.0], not the
    Feature with geometry [null] the empty-intersection case calls for. *)
Lemma intersection_disjoint_not_null :
  st_intersection (sample_engine [])
    (mkGeom 4326 (point_json (JFloat 0) (JFloat 0)))
    (mkGeom 4326 (point_json (JFloat 1) (JFloat 1))) = Some (mkGeom 4326 empty_collection) /\
  intersection (sample_engine [])
    [("a", point_json (JFloat 0) (JFloat 0)); ("b", point_json (JFloat 1) (JFloat 1))] =
    Ok (feature empty_collection (JDict [("area_m2", JFloat 0)])) /\
  is_none (geometry_of (feature empty_collection (JDict [("area_m2", JFloat 0)]))) = false.
Proof. split; [|split]; vm_compute; reflexivity. Qed.

Lemma intersection_row_area (E : Engine) (ga gb gj : json) (area : option float) :
  intersection_row E ga gb = Ok (gj, area) -> is_none gj = false -> exists x, area = Some x.
Proof.
  unfold intersection_row, bind. intros H Hn.
  destruct (q_geom E ga) as [qa|e]; [|discriminate H].
  destruct (q_geom E gb) as [qb|e]; [|discriminate H].
  destruct qa as [a|], qb as [b|]; unfold db in H;
    try (injection H as <- _; discriminate Hn).
  destruct (st_intersection E a b) as [g|]; [|discriminate H].
  destruct (geog_area E g) as [x|]; [|discriminate H].
  injection H as _ <-. exists x. reflexivity.
Qed.

(** /q/intersection does not fail once [a] and [b] are present, parse, and
    the engine's query returns its row: it answers the Feature with geometry
    [null] and [area_m2 = 0.0] exactly when the GeoJSON of the intersection
    is null, and otherwise the Feature of that GeoJSON with the intersection's
    geodesic area, which is then never NULL. *)
Theorem intersection_answers (E : Engine) (p : dict) (ga gb gj : json) (area : option float) :
  is_none (py_get p "a") = false -> is_none (py_get p "b") = false ->
  parse_geojson_geometry (json_loads E) (py_get p "a") = Ok ga ->
  parse_geojson_geometry (json_loads E) (py_get p "b") = Ok gb ->
  intersection_row E ga gb = Ok (gj, area) ->
  exists out, intersection E p = Ok out /\
    ((is_none gj = true /\
      out = JDict [("type", JStr "Feature"); ("geometry", JNull);
                   ("properties", JDict [("area_m2", JFloat 0)])]) \/
     (is_none gj = false /\ exists x, area = Some x /\
      out = feature gj (JDict [("area_m2", JFloat x)]))).
Proof.
  intros Ha Hb Hga Hgb Hr. unfold intersection. rewrite Ha, Hb, Hga. simpl bind.
  rewrite Hgb. simpl bind. rewrite Hr. simpl bind.
  destruct (is_none gj) eqn:Hn.
  - eexists. split; [reflexivity|]. left. split; reflexivity.
  - destruct (intersection_row_area E ga gb gj area Hr Hn) as [x ->].
    eexists. split; [reflexivity|]. right. split; [reflexivity|].
    exists x. split; reflexivity.
Qed.

Lemma py_int_not_http (v : json) (e : exc) :
  py_int v = Exn e -> http_status (Exn e : res json) = 500.
Proof.
  destruct v; simpl; try (intros H; injection H as <-; reflexivity); try discriminate.
  - unfold py_int_float. destruct (Prim2SF f); try discriminate;
      intros H; injection H as <-; reflexivity.
  - destruct (parse_int_literal s); [discriminate|]. intros H; injection H as <-; reflexivity.
Qed.

Lemma py_lower_not_http (v : json) (e : exc) :
  py_lower v = Exn e -> http_status (Exn e : res json) = 500.
Proof. destruct v; simpl; try discriminate; intros H; injection H as <-; reflexivity. Qed.

(** C9, counterexample.  A numeric [source] has no [lower()]: the request
    fails with an AttributeError (500) instead of selecting the features
    table. *)
Lemma pip_numeric_source_fails :
  point_in_polygon (sample_engine [])
    [("lon", JFloat 30.3); ("lat", JFloat 59.9); ("source", JInt 5)] =
    Exn (AttributeError "object has no attribute 'lower'") /\
  http_status (point_in_polygon (sample_engine [])
    [("lon", JFloat 30.3); ("lat", JFloat 59.9); ("source", JInt 5)]) = 500.
Proof. split; reflexivity. Qed.

(** C9 (amended).  In /q/pip and /q/intersects a falsy [source] (absent,
    null, "", 0, false, empty list or object) selects FEATURES_TABLE; a
    string selects REGIONS_TABLE exactly when its lower-case form is
    "regions", FEATURES_TABLE otherwise; any other truthy value has no
    [lower()] and fails with an AttributeError (500) before any query.  No
    [source] value gives a 400. *)
Theorem source_selects_table (E : Engine) (p : dict) :
  (py_truthy (py_get p "source") = false ->
     exists src, source_of p = Ok src /\ table_of E src = FEATURES_TABLE E) /\
  (forall s, py_get p "source" = JStr s -> py_truthy (JStr s) = true ->
     exists src, source_of p = Ok src /\
       table_of E src = if String.eqb (string_lower s) "regions"
                        then REGIONS_TABLE E else FEATURES_TABLE E) /\
  (py_truthy (py_get p "source") = true ->
   (match py_get p "source" with JStr _ => false | _ => true end) = true ->
     source_of p = Exn (AttributeError "object has no attribute 'lower'")) /\
  (forall e, source_of p = Exn e -> http_status (Exn e : res json) = 500) /\
  (forall e, source_of p = Exn e -> point_in_polygon E p = Exn e) /\
  (forall src n, source_of p = Ok src ->
     py_int (py_get_default p "limit" (JInt 200)) = Ok n ->
     is_none (py_get p "lon") = false -> is_none (py_get p "lat") = false ->
     point_in_polygon E p =
       (let* rows := db (pip_query E (table_of E src) (py_get p "lon") (py_get p "lat") n) in
        Ok (rows_to_featurecollection rows "geom_geojson"))) /\
  (forall geom e,
     parse_geojson_geometry (json_loads E) (py_get p "geojson") = Ok geom ->
     source_of p = Exn e -> polygon_intersects E p = Exn e) /\
  (forall geom src n,
     parse_geojson_geometry (json_loads E) (py_get p "geojson") = Ok geom ->
     source_of p = Ok src ->
     py_int (py_get_default p "limit" (JInt 500)) = Ok n ->
     polygon_intersects E p =
       (let* rows := db (intersects_query E (table_of E src) geom n) in
        Ok (rows_to_featurecollection rows "geom_geojson"))).
Proof.
  split; [|split; [|split; [|split; [|split; [|split; [|split]]]]]].
  - intros Hf. exists "features". unfold source_of, py_or. rewrite Hf. split; reflexivity.
  - intros s Hs Ht. exists (string_lower s). unfold source_of, py_or.
    rewrite Hs, Ht. split; reflexivity.
  - intros Ht Hns. unfold source_of, py_or. rewrite Ht.
    destruct (py_get p "source"); try discriminate Hns; reflexivity.
  - intros e He. eapply py_lower_not_http, He.
  - intros e He. unfold point_in_polygon. rewrite He. reflexivity.
  - intros src n Hs Hn Hlon Hlat. unfold point_in_polygon. rewrite Hs. simpl.
    rewrite Hn. simpl. rewrite Hlon, Hlat. reflexivity.
  - intros geom e Hg He. unfold polygon_intersects. rewrite Hg. simpl. rewrite He. reflexivity.
  - intros geom src n Hg Hs Hn. unfold polygon_intersects. rewrite Hg. simpl.
    rewrite Hs. simpl. rewrite Hn. reflexivity.
Qed.

(** C10.  /q/pip and /q/knn convert [limit] / [k] with [int()] before they
    check [lon]/[lat]: a value [int()] rejects (null, a non-numeric string,
    a list, an object, inf, nan) raises that conversion error, a 500, even
    when [lon] and [lat] are missing (for /q/pip once [source] has been
    lowered); a finite float [num/den] becomes [Z.quot num den], its
    truncation toward zero, and that value is the LIMIT of the query. *)
Theorem limit_k_coerced_before_lonlat (E : Engine) (p : dict) :
  (forall e, (exists src, source_of p = Ok src) ->
     py_int (py_get_default p "limit" (JInt 200)) = Exn e ->
     point_in_polygon E p = Exn e /\ http_status (point_in_polygon E p) = 500) /\
  (forall e, py_int (py_get_default p "k" (JInt 10)) = Exn e ->
     knn E p = Exn e /\ http_status (knn E p) = 500) /\
  (forall f num den, float_exact f = Some (num, den) -> py_int (JFloat f) = Ok (Z.quot num den)) /\
  (forall f, float_exact f = None -> is_exn (py_int (JFloat f)) = true) /\
  (forall n, py_int (py_get_default p "k" (JInt 10)) = Ok n ->
     is_none (py_get p "lon") = false -> is_none (py_get p "lat") = false ->
     knn E p = (let* rows := knn_query E (py_get p "lon") (py_get p "lat") n in
                Ok (rows_to_featurecollection rows "geom_geojson"))).
Proof.
  split; [|split; [|split; [|split]]].
  - intros e [src Hs] He. unfold point_in_polygon. rewrite Hs. simpl. rewrite He. simpl.
    split; [reflexivity|]. eapply py_int_not_http, He.
  - intros e He. unfold knn. rewrite He. simpl. split; [reflexivity|].
    eapply py_int_not_http, He.
  - intros f num den Hx. unfold float_exact in Hx. simpl. unfold py_int_float.
    destruct (Prim2SF f) as [s|s| |s m e]; try discriminate Hx.
    + injection Hx as <- <-. reflexivity.
    + injection Hx as <- <-. f_equal.
      destruct (Z.leb_spec 0 e) as [He|He].
      * rewrite Z.max_l by lia. rewrite (Z.max_r (- e) 0) by lia. simpl (2 ^ 0).
        rewrite Z.quot_1_r. destruct s; lia.
      * rewrite Z.max_r by lia. rewrite (Z.max_l (- e) 0) by lia. simpl (2 ^ 0).
        assert (Hd : 0 < 2 ^ (- e)) by (apply Z.pow_pos_nonneg; lia).
        rewrite Z.mul_1_r.
        destruct s.
        -- change (Zneg m) with (- Zpos m). rewrite Z.quot_opp_l by lia.
           rewrite Z.quot_div_nonneg by lia. reflexivity.
        -- rewrite Z.quot_div_nonneg by lia. reflexivity.
  - intros f Hx. unfold float_exact in Hx. simpl. unfold py_int_float.
    destruct (Prim2SF f); try discriminate Hx; reflexivity.
  - intros n Hn Hlon Hlat. unfold knn. rewrite Hn. simpl. rewrite Hlon, Hlat. reflexivity.
Qed.

(** ** Distance answers *)

Lemma StronglySorted_impl {A} (R R' : A -> A -> Prop) (l : list A) :
  (forall a b, R a b -> R' a b) -> StronglySorted R l -> StronglySorted R' l.
Proof.
  intros HR. induction l as [|x l IH]; intros H; [constructor|].
  inversion H as [|? ? Hs Hf]; subst. constructor; [auto|].
  eapply Forall_impl; [|exact Hf]. auto.
Qed.

Lemma rows_features_dist_rows (E : Engine) (pt : geom) (l : list feat_row) :
  rows_features (map (fun f => dist_row f (row_dist E pt f)) l) "geom_geojson" =
  map (dist_feature E pt) (filter has_geom l).
Proof.
  induction l as [|f l IH]; [reflexivity|].
  simpl map. simpl filter. unfold has_geom at 1.
  simpl rows_features. rewrite IH.
  destruct (is_none (as_geojson_col (fr_geom f))); reflexivity.
Qed.

Lemma feature_dist_dist_feature (E : Engine) (pt : geom) (f : feat_row) :
  feature_dist (dist_feature E pt f) = row_dist E pt f.
Proof. unfold feature_dist, dist_feature. simpl. destruct (row_dist E pt f); reflexivity. Qed.

Lemma fc_features_rows (rows : list dict) (gk : string) :
  fc_features (rows_to_featurecollection rows gk) = rows_features rows gk.
Proof. reflexivity. Qed.

Lemma dist_features_sorted (E : Engine) (pt : geom) (key : feat_row -> option float)
    (l : list feat_row) :
  StronglySorted (fun a b => sql_key (key a) <= sql_key (key b)) l ->
  (forall f, key f = row_dist E pt f) ->
  StronglySorted (fun a b => sql_key (feature_dist a) <= sql_key (feature_dist b))
                 (map (dist_feature E pt) (filter has_geom l)).
Proof.
  intros H Hk. apply StronglySorted_map. apply StronglySorted_filter.
  eapply StronglySorted_impl; [|exact H].
  intros a b. cbv beta. rewrite !feature_dist_dist_feature, <- !Hk. auto.
Qed.

(** Two reported distances in decreasing order at the head of an answer. *)
Lemma descending_head_not_sorted (l : list json) (x y : float) (rest : list (option float)) :
  map feature_dist l = Some x :: Some y :: rest ->
  (float8_key y <? float8_key x) = true ->
  ~ StronglySorted (fun a b => sql_key (feature_dist a) <= sql_key (feature_dist b)) l.
Proof.
  intros Hm Hlt H.
  destruct l as [|a [|b l]]; simpl in Hm; try discriminate Hm.
  injection Hm as Ha Hb _.
  apply StronglySorted_inv in H as [_ Hf]. apply Forall_inv in Hf.
  rewrite Ha, Hb in Hf. simpl in Hf. apply Z.ltb_lt in Hlt. lia.
Qed.

(** C4 (amended). Within-distance answers come sorted by their [dist_m]
    property.  A KNN answer is the first [k] rows of ORDER BY [geom <-> pt]
    (the planar distance in degrees), keeping those with a geometry, and
    each feature reports the geodesic [dist_m] of its row: the order is that
    of [<->], not of the reported [dist_m]. *)
Theorem distance_answers_order (E : Engine) (Hord : sql_order_by_ok E) :
  (forall p out, within_distance E p = Ok out ->
     StronglySorted (fun a b => sql_key (feature_dist a) <= sql_key (feature_dist b))
                    (fc_features out)) /\
  (forall p out, knn E p = Ok out ->
     exists pt k,
       make_point E (py_get p "lon") (py_get p "lat") = Some pt /\
       py_int (py_get_default p "k" (JInt 10)) = Ok k /\ 0 <= k /\
       let top := firstn (Z.to_nat k) (order_by E (knn_key E pt) (features E)) in
       StronglySorted (fun a b => sql_key (knn_key E pt a) <= sql_key (knn_key E pt b)) top /\
       fc_features out = map (dist_feature E pt) (filter has_geom top) /\
       map feature_dist (fc_features out) = map (row_dist E pt) (filter has_geom top)).
Proof.
  split.
  - intros p out H. unfold within_distance, within_query, bind, db, sql_limit in H.
    destruct (py_int _) as [limit|e]; [|discriminate].
    destruct (_ || _ || _); [discriminate|].
    destruct (make_point E _ _) as [pt|]; [|discriminate].
    destruct (filterM _ _) as [hits|]; [|discriminate].
    destruct (limit <? 0); [discriminate|].
    injection H as <-. rewrite fc_features_rows, rows_features_dist_rows.
    apply (dist_features_sorted E pt (row_dist E pt)); [|reflexivity].
    apply StronglySorted_firstn. apply Hord.
  - intros p out H. unfold knn, knn_query, bind, db, sql_limit in H.
    destruct (py_int _) as [k|e] eqn:Hk; [|discriminate].
    destruct (_ || _); [discriminate|].
    destruct (make_point E _ _) as [pt|] eqn:Hpt; [|discriminate].
    destruct (k <? 0) eqn:Hneg; [discriminate|].
    injection H as <-. exists pt, k.
    repeat split; auto.
    + apply Z.ltb_ge in Hneg. exact Hneg.
    + apply StronglySorted_firstn. apply Hord.
    + rewrite fc_features_rows, rows_features_dist_rows. reflexivity.
    + rewrite fc_features_rows, rows_features_dist_rows, map_map.
      apply map_ext. apply feature_dist_dist_feature.
Qed.

(** C4, counterexample.  KNN around (30.0, 60.0) with A 0.01 degree east
    and B 0.006 degree north: [<->] ranks B first, but B's reported
    [dist_m] (about 667.17 m) exceeds A's (about 555.98 m), so the answer
    is not in non-decreasing order of [dist_m]. *)
Lemma knn_not_sorted_by_dist_m :
  sql_order_by_ok (sample_engine [feat_A; feat_B]) /\
  exists out, knn (sample_engine [feat_A; feat_B]) knn_request = Ok out /\
    map feature_dist (fc_features out) =
      [Some 667.17048140122267%float; Some 555.97540116775144%float] /\
    ~ StronglySorted (fun a b => sql_key (feature_dist a) <= sql_key (feature_dist b))
                     (fc_features out).
Proof.
  split; [apply sample_engine_order_ok|].
  eexists; split; [vm_compute; reflexivity|].
  split; [vm_compute; reflexivity|].
  apply (descending_head_not_sorted _ 667.17048140122267%float 555.97540116775144%float []);
    vm_compute; reflexivity.
Qed.

(** ** Instances of the theorems on concrete requests *)

(** C5 on a Feature with a null geometry and on an absent input. *)
Lemma parse_geojson_geometry_contract_witness :
  is_exn (parse_geojson_geometry (fun _ => None) JNull) = true /\
  parse_geojson_geometry (fun _ => None)
    (JDict [("type", JStr "Feature"); ("geometry", JNull)]) = Ok JNull /\
  exists d, decoded (fun _ => None) (JDict [("type", JStr "Feature"); ("geometry", JNull)])
              = Some (JDict d) /\ py_has_key d "type" = true /\
            JNull = (if feature_tag (py_get d "type") then py_get d "geometry" else JDict d).
Proof.
  split; [|split; [reflexivity|]].
  - apply (proj1 (parse_geojson_geometry_contract (fun _ => None) JNull)).
    left; reflexivity.
  - apply (proj2 (proj2 (parse_geojson_geometry_contract (fun _ => None)
                           (JDict [("type", JStr "Feature"); ("geometry", JNull)])))).
    reflexivity.
Defined.

(** C7 on a polygon. *)
Lemma area_perimeter_km_derived_witness :
  exists out, polygon_area (sample_engine [])
                [("geojson", JDict [("type", JStr "Polygon"); ("coordinates", JList [])])] = Ok out /\
  exists m2, out = JDict [("area_m2", JFloat m2); ("area_km2", JFloat (m2 / 1e6)%float)].
Proof.
  eexists; split; [vm_compute; reflexivity|].
  apply (proj1 (area_perimeter_km_derived (sample_engine [])
                  [("geojson", JDict [("type", JStr "Polygon"); ("coordinates", JList [])])])).
  vm_compute; reflexivity.
Defined.

(** C8 on a point sent to EPSG:3857. *)
Lemma transform_keeps_wgs84_geometry_witness :
  exists out, transform (sample_engine [])
                [("geojson", point_json (JFloat 30.0) (JFloat 60.0)); ("to_epsg", JInt 3857)] = Ok out /\
  exists to_epsg geom,
    py_int (JInt 3857) = Ok to_epsg /\
    parse_geojson_geometry (fun _ => None) (point_json (JFloat 30.0) (JFloat 60.0)) = Ok geom.
Proof.
  eexists; split; [vm_compute; reflexivity|].
  destruct (transform_keeps_wgs84_geometry (sample_engine [])
              [("geojson", point_json (JFloat 30.0) (JFloat 60.0)); ("to_epsg", JInt 3857)]
              _ eq_refl) as (z & g & Hz & _ & Hg & _).
  exists z, g. split; [exact Hz|exact Hg].
Defined.

(** C2 on ids matching no stored row, and on a request with neither source. *)
Lemma union_not_found_vs_missing_witness :
  union_polygons (sample_engine []) [("region_ids", JList [JInt 999])] =
    Exn (HTTPException 404 "No geometries found for given region_ids") /\
  union_polygons (sample_engine []) [("geoms", JList [])] =
    Exn (HTTPException 400 "Provide region_ids or geoms").
Proof.
  split.
  - apply (proj1 (proj2 (union_not_found_vs_missing (sample_engine [])
                           [("region_ids", JList [JInt 999])]))); reflexivity.
  - apply (proj2 (proj2 (union_not_found_vs_missing (sample_engine [])
                           [("geoms", JList [])]))); reflexivity.
Defined.

(** /q/intersection on two equal points: their intersection is the point,
    of area 0. *)
Lemma intersection_answers_witness :
  exists out,
    intersection (sample_engine [])
      [("a", point_json (JFloat 1) (JFloat 1)); ("b", point_json (JFloat 1) (JFloat 1))] = Ok out /\
    ((is_none (point_json (JFloat 1) (JFloat 1)) = true /\
      out = JDict [("type", JStr "Feature"); ("geometry", JNull);
                   ("properties", JDict [("area_m2", JFloat 0)])]) \/
     (is_none (point_json (JFloat 1) (JFloat 1)) = false /\ exists x, Some 0%float = Some x /\
      out = feature (point_json (JFloat 1) (JFloat 1)) (JDict [("area_m2", JFloat x)]))).
Proof.
  apply (intersection_answers (sample_engine [])
           [("a", point_json (JFloat 1) (JFloat 1)); ("b", point_json (JFloat 1) (JFloat 1))]
           (point_json (JFloat 1) (JFloat 1)) (point_json (JFloat 1) (JFloat 1))
           (point_json (JFloat 1) (JFloat 1)) (Some 0%float));
    vm_compute; reflexivity.
Defined.

(** C9 on [source = "Regions"] and on [source = 5]. *)
Lemma source_selects_table_witness :
  (exists src, source_of [("source", JStr "Regions")] = Ok src /\
     table_of (sample_engine []) src = REGIONS_TABLE (sample_engine [])) /\
  source_of [("source", JInt 5)] = Exn (AttributeError "object has no attribute 'lower'").
Proof.
  split.
  - apply (proj1 (proj2 (source_selects_table (sample_engine []) [("source", JStr "Regions")]))
             "Regions"); reflexivity.
  - apply (proj1 (proj2 (proj2 (source_selects_table (sample_engine []) [("source", JInt 5)]))));
      reflexivity.
Defined.

(** C10 on [k = "abc"] with no [lon]/[lat], and on the float 2.5. *)
Lemma limit_k_coerced_before_lonlat_witness :
  (knn (sample_engine []) [("k", JStr "abc")] = Exn (ValueError "invalid literal for int() with base 10") /\
   http_status (knn (sample_engine []) [("k", JStr "abc")]) = 500) /\
  py_int (JFloat 2.5%float) = Ok 2.
Proof.
  split.
  - apply (proj1 (proj2 (limit_k_coerced_before_lonlat (sample_engine []) [("k", JStr "abc")]))).
    reflexivity.
  - rewrite (proj1 (proj2 (proj2 (limit_k_coerced_before_lonlat (sample_engine []) [])))
               2.5%float (5 * 2 ^ 50) (2 ^ 51)); [reflexivity|].
    vm_compute; reflexivity.
Defined.

(** C4 on the two features of the counterexample: the within-distance answer
    is sorted by [dist_m]; the KNN answer is the first two rows by [<->]. *)
Lemma distance_answers_order_witness :
  sql_order_by_ok (sample_engine [feat_A; feat_B]) /\
  (exists out, within_distance (sample_engine [feat_A; feat_B])
                 [("lon", JFloat 30.0); ("lat", JFloat 60.0); ("radius_m", JFloat 1000.0)] = Ok out /\
     List.length (fc_features out) = 2%nat /\
     StronglySorted (fun a b => sql_key (feature_dist a) <= sql_key (feature_dist b))
                    (fc_features out)) /\
  (exists out, knn (sample_engine [feat_A; feat_B]) knn_request = Ok out /\
     exists pt k, k = 2 /\
       fc_features out = map (dist_feature (sample_engine [feat_A; feat_B]) pt)
         (filter has_geom (firstn (Z.to_nat k)
            (order_by (sample_engine [feat_A; feat_B])
                      (knn_key (sample_engine [feat_A; feat_B]) pt) [feat_A; feat_B])))).
Proof.
  pose proof (sample_engine_order_ok [feat_A; feat_B]) as Hord.
  destruct (distance_answers_order (sample_engine [feat_A; feat_B]) Hord) as [Hw Hk].
  split; [exact Hord|split].
  - assert (Hn : match within_distance (sample_engine [feat_A; feat_B])
                         [("lon", JFloat 30.0); ("lat", JFloat 60.0); ("radius_m", JFloat 1000.0)]
                 with Ok o => List.length (fc_features o) | Exn _ => 0%nat end = 2%nat)
      by (vm_compute; reflexivity).
    destruct (within_distance _ _) as [out|e] eqn:Hwd; [|discriminate Hn].
    exists out. split; [reflexivity|]. split; [exact Hn|]. exact (Hw _ _ Hwd).
  - assert (Hok : is_exn (knn (sample_engine [feat_A; feat_B]) knn_request) = false)
      by (vm_compute; reflexivity).
    destruct (knn _ _) as [out|e] eqn:Hkn; [|discriminate Hok].
    exists out. split; [reflexivity|].
    destruct (Hk knn_request out Hkn) as (pt & k & _ & Hkk & _ & _ & Hf & _).
    vm_compute in Hkk. injection Hkk as <-.
    exists pt, 2. split; [reflexivity|exact Hf].
Defined.
(** ** Further properties of the handlers *)

Lemma filterM_filter {A} (p : A -> res bool) (l r : list A) :
  filterM p l = Ok r ->
  r = filter (fun x => match p x with Ok b => b | Exn _ => false end) l.
Proof.
  revert r; induction l as [|x l IH]; intros r H; simpl in *.
  - injection H as <-. reflexivity.
  - unfold bind in H. destruct (p x) as [b|e]; [|discriminate H].
    destruct (filterM p l) as [r'|e]; [|discriminate H].
    injection H as <-. rewrite (IH r' eq_refl). destruct b; reflexivity.
Qed.

Lemma filterM_exn {A} (p : A -> res bool) (l : list A) (e : exc) :
  filterM p l = Exn e -> exists x, In x l /\ p x = Exn e.
Proof.
  induction l as [|x l IH]; simpl; intros H; [discriminate H|].
  unfold bind in H. destruct (p x) as [b|e'] eqn:Hp.
  - destruct (filterM p l) as [r|e'']; [discriminate H|].
    injection H as ->. destruct (IH eq_refl) as [y [Hy Hpy]]. exists y; auto.
  - injection H as ->. exists x; auto.
Qed.

Lemma mapM_exn {A B} (f : A -> res B) (l : list A) (e : exc) :
  mapM f l = Exn e -> exists x, In x l /\ f x = Exn e.
Proof.
  induction l as [|x l IH]; simpl; intros H; [discriminate H|].
  unfold bind in H. destruct (f x) as [y|e'] eqn:Hf.
  - destruct (mapM f l) as [r|e'']; [discriminate H|].
    injection H as ->. destruct (IH eq_refl) as [z [Hz Hfz]]. exists z; auto.
  - injection H as ->. exists x; auto.
Qed.

Lemma mapM_some_exn {A B} (f : A -> res B) (l : list A) :
  Exists (fun x => is_exn (f x) = true) l -> is_exn (mapM f l) = true.
Proof.
  induction 1 as [x l Hx|x l _ IH]; simpl; unfold bind.
  - destruct (f x); [discriminate Hx|reflexivity].
  - destruct (f x); [|reflexivity]. destruct (mapM f l); [discriminate IH|reflexivity].
Qed.

Lemma Permutation_filter_length {A} (p : A -> bool) (l l' : list A) :
  Permutation l l' -> List.length (filter p l) = List.length (filter p l').
Proof.
  induction 1; simpl.
  - reflexivity.
  - destruct (p x); simpl; congruence.
  - destruct (p x), (p y); reflexivity.
  - congruence.
Qed.

Lemma filter_all {A} (p : A -> bool) (l : list A) :
  (forall x, In x l -> p x = true) -> filter p l = l.
Proof.
  induction l as [|x l IH]; simpl; intros H; [reflexivity|].
  rewrite (H x (or_introl eq_refl)). f_equal. apply IH. auto.
Qed.

Lemma digits2_pos_bound (m : positive) : Zpos m < 2 ^ Zpos (SpecFloat.digits2_pos m).
Proof.
  induction m as [m IH|m IH|]; simpl SpecFloat.digits2_pos.
  - rewrite Pos2Z.inj_succ, Z.pow_succ_r by lia. rewrite Pos2Z.inj_xI. lia.
  - rewrite Pos2Z.inj_succ, Z.pow_succ_r by lia. rewrite Pos2Z.inj_xO. lia.
  - simpl. lia.
Qed.

(** Every float8 sorts before NULL. *)
Lemma float8_key_lt_null (f : float) : float8_key f < 2 ^ 2400.
Proof.
  unfold float8_key. pose proof (Prim2SF_valid f) as Hv.
  destruct (Prim2SF f) as [s|s| |s m e]; simpl in Hv.
  - lia.
  - destruct s; [lia|]. apply Z.pow_lt_mono_r; lia.
  - apply Z.pow_lt_mono_r; lia.
  - unfold SpecFloat.bounded, SpecFloat.canonical_mantissa, SpecFloat.fexp,
      SpecFloat.emin in Hv.
    apply andb_prop in Hv as [Hc He]. apply Z.eqb_eq in Hc. apply Z.leb_le in He.
    pose proof (digits2_pos_bound m) as Hm.
    set (d := Zpos (SpecFloat.digits2_pos m)) in *.
    unfold FloatOps.prec, FloatOps.emax in Hc, He.
    change IntDef.Z.max with Z.max in Hc.
    assert (Hd : d <= 53) by (pose proof (Z.le_max_l (d + e - 53) (3 - 1024 - 53)); lia).
    assert (Hlt : Zpos m * 2 ^ (e + 1074) < 2 ^ 2400).
    { destruct (Z.leb_spec 0 (e + 1074)) as [H0|H0].
      - apply Z.lt_le_trans with (2 ^ d * 2 ^ (e + 1074)).
        + apply Z.mul_lt_mono_pos_r; [apply Z.pow_pos_nonneg; lia|exact Hm].
        + rewrite <- Z.pow_add_r by lia. apply Z.pow_le_mono_r; lia.
      - rewrite (Z.pow_neg_r 2 (e + 1074)) by lia. rewrite Z.mul_0_r.
        apply Z.pow_pos_nonneg; lia. }
    destruct s; lia.
Qed.

Lemma sql_key_null_last (k : option float) :
  sql_key None <= sql_key k -> k = None.
Proof.
  destruct k as [f|]; [|reflexivity]. simpl. pose proof (float8_key_lt_null f). lia.
Qed.

Lemma filter_none {A} (p : A -> bool) (l : list A) :
  (forall x, In x l -> p x = false) -> filter p l = [].
Proof.
  induction l as [|x l IH]; simpl; intros H; [reflexivity|].
  rewrite (H x (or_introl eq_refl)). apply IH. auto.
Qed.

(** In a list sorted with NULLs last, the rows with a key come first. *)
Lemma sorted_nulls_last_firstn {A} (k : A -> option float) (p : A -> bool) (l : list A) (n : nat) :
  (forall x, p x = true <-> k x <> None) ->
  StronglySorted (fun a b => sql_key (k a) <= sql_key (k b)) l ->
  List.length (filter p (firstn n l)) = Nat.min n (List.length (filter p l)).
Proof.
  intros Hp. revert n; induction l as [|a l IH]; intros n Hs.
  - rewrite firstn_nil. simpl. lia.
  - apply StronglySorted_inv in Hs as [Hs Hf].
    destruct n as [|n]; [reflexivity|]. simpl.
    destruct (p a) eqn:Ha.
    + simpl. rewrite IH by exact Hs. lia.
    + assert (Hka : k a = None).
      { destruct (k a) eqn:E; [|reflexivity]. exfalso.
        assert (p a = true) by (apply Hp; congruence). congruence. }
      assert (Hnone : forall b, In b l -> p b = false).
      { intros b Hb. rewrite Forall_forall in Hf. specialize (Hf b Hb).
        rewrite Hka in Hf. apply sql_key_null_last in Hf.
        destruct (p b) eqn:Hpb; [|reflexivity]. apply Hp in Hpb. congruence. }
      rewrite (filter_none p (firstn n l)), (filter_none p l); [simpl; lia|exact Hnone|].
      intros b Hb. apply Hnone. eapply in_firstn_in; exact Hb.
Qed.

Lemma parse_exn_value_error (json_loads : string -> option json) (v : json) (e : exc) :
  parse_geojson_geometry json_loads v = Exn e -> is_value_error e = true.
Proof.
  unfold parse_geojson_geometry, bind. intros H.
  destruct (is_none v); [injection H as <-; reflexivity|].
  destruct v as [| | | |s| |d]; simpl in H;
    try (injection H as <-; reflexivity);
    [destruct (json_loads s) as [[| | | | | |d]|]; simpl in H;
       try (injection H as <-; reflexivity)|];
    (destruct (py_has_key d "type"); [|injection H as <-; reflexivity]);
    (destruct (py_get d "type"); try discriminate H); simpl in H;
    (destruct (String.eqb _ _); discriminate H).
Qed.

Lemma parse_exn_status (json_loads : string -> option json) (v : json) (e : exc) :
  parse_geojson_geometry json_loads v = Exn e -> http_status (Exn e : res json) = 500.
Proof.
  intros H. apply parse_exn_value_error in H. destruct e; try discriminate H; reflexivity.
Qed.

Lemma within_distance_ok_inv (E : Engine) (p : dict) (out : json) :
  within_distance E p = Ok out ->
  exists pt limit hits,
    make_point E (py_get p "lon") (py_get p "lat") = Some pt /\
    py_int (py_get_default p "limit" (JInt 500)) = Ok limit /\ 0 <= limit /\
    hits = filter (in_radius E pt (py_get p "radius_m")) (features E) /\
    fc_features out =
      map (dist_feature E pt)
          (filter has_geom (firstn (Z.to_nat limit) (order_by E (row_dist E pt) hits))).
Proof.
  intros H. unfold within_distance, within_query, bind, db, sql_limit in H.
  destruct (py_int _) as [limit|e] eqn:Hl; [|discriminate].
  destruct (_ || _ || _); [discriminate|].
  destruct (make_point E _ _) as [pt|] eqn:Hpt; [|discriminate].
  destruct (filterM _ _) as [hits|] eqn:Hh; [|discriminate].
  destruct (limit <? 0) eqn:Hneg; [discriminate|].
  injection H as <-. exists pt, limit, hits.
  split; [reflexivity|split; [reflexivity|split; [apply Z.ltb_ge; exact Hneg|split]]].
  - rewrite (filterM_filter _ _ _ Hh). apply filter_ext. intros f.
    unfold in_radius. destruct (fr_geom f) as [g|]; [|reflexivity].
    destruct (dwithin E g pt _); reflexivity.
  - rewrite fc_features_rows, rows_features_dist_rows. reflexivity.
Qed.

Lemma knn_ok_inv (E : Engine) (p : dict) (out : json) :
  knn E p = Ok out ->
  exists pt k,
    make_point E (py_get p "lon") (py_get p "lat") = Some pt /\
    py_int (py_get_default p "k" (JInt 10)) = Ok k /\ 0 <= k /\
    fc_features out =
      map (dist_feature E pt)
          (filter has_geom (firstn (Z.to_nat k) (order_by E (knn_key E pt) (features E)))).
Proof.
  intros H. unfold knn, knn_query, bind, db, sql_limit in H.
  destruct (py_int _) as [k|e]; [|discriminate].
  destruct (_ || _); [discriminate|].
  destruct (make_point E _ _) as [pt|]; [|discriminate].
  destruct (k <? 0) eqn:Hneg; [discriminate|].
  injection H as <-. exists pt, k.
  split; [reflexivity|split; [reflexivity|split; [apply Z.ltb_ge; exact Hneg|]]].
  rewrite fc_features_rows, rows_features_dist_rows. reflexivity.
Qed.

(** Within-distance answers hold at most [limit] features, each the row of a
    feature of FEATURES_TABLE that lies within [radius_m] of the query point
    (ST_DWithin holds for its non-NULL geometry). *)
Theorem within_distance_answer_in_range (E : Engine) (Hord : sql_order_by_ok E)
    (p : dict) (out : json) :
  within_distance E p = Ok out ->
  exists pt limit,
    make_point E (py_get p "lon") (py_get p "lat") = Some pt /\
    py_int (py_get_default p "limit" (JInt 500)) = Ok limit /\ 0 <= limit /\
    (List.length (fc_features out) <= Z.to_nat limit)%nat /\
    forall x, In x (fc_features out) ->
      exists f g, In f (features E) /\ fr_geom f = Some g /\
        dwithin E g pt (py_get p "radius_m") = Some true /\ x = dist_feature E pt f.
Proof.
  intros H. destruct (within_distance_ok_inv E p out H)
    as (pt & limit & hits & Hpt & Hl & Hnn & Hhits & Hout).
  exists pt, limit. split; [exact Hpt|split; [exact Hl|split; [exact Hnn|split]]].
  - rewrite Hout, length_map.
    etransitivity; [apply filter_length_le|]. rewrite length_firstn. lia.
  - intros x Hx. rewrite Hout in Hx. apply in_map_iff in Hx as [f [<- Hf]].
    apply filter_In in Hf as [Hf _]. apply in_firstn_in in Hf.
    destruct (Hord _ (row_dist E pt) hits) as [Hperm _].
    apply (Permutation_in _ (Permutation_sym Hperm)) in Hf.
    rewrite Hhits in Hf. apply filter_In in Hf as [Hin Hr].
    unfold in_radius in Hr. destruct (fr_geom f) as [g|] eqn:Hg; [|discriminate Hr].
    exists f, g. split; [exact Hin|split; [exact Hg|split; [|reflexivity]]].
    destruct (dwithin E g pt _) as [[]|]; first [reflexivity|discriminate Hr].
Qed.

(** When every stored geometry has a GeoJSON form, a within-distance answer
    holds exactly [min(limit, n)] features, [n] the number of features of
    FEATURES_TABLE within [radius_m] of the query point. *)
Theorem within_distance_count (E : Engine) (Hord : sql_order_by_ok E)
    (Hjson : forall f g, In f (features E) -> fr_geom f = Some g -> g_json g <> JNull)
    (p : dict) (out : json) :
  within_distance E p = Ok out ->
  exists pt limit,
    make_point E (py_get p "lon") (py_get p "lat") = Some pt /\
    py_int (py_get_default p "limit" (JInt 500)) = Ok limit /\
    List.length (fc_features out) =
      Nat.min (Z.to_nat limit)
              (List.length (filter (in_radius E pt (py_get p "radius_m")) (features E))).
Proof.
  intros H. destruct (within_distance_ok_inv E p out H)
    as (pt & limit & hits & Hpt & Hl & _ & Hhits & Hout).
  exists pt, limit. split; [exact Hpt|split; [exact Hl|]].
  destruct (Hord _ (row_dist E pt) hits) as [Hperm _].
  rewrite Hout, length_map, filter_all.
  - rewrite length_firstn, <- (Permutation_length Hperm), Hhits. reflexivity.
  - intros f Hf. apply in_firstn_in in Hf.
    apply (Permutation_in _ (Permutation_sym Hperm)) in Hf.
    rewrite Hhits in Hf. apply filter_In in Hf as [Hin Hr].
    unfold in_radius in Hr. unfold has_geom, as_geojson_col.
    destruct (fr_geom f) as [g|] eqn:Hg; [|discriminate Hr].
    specialize (Hjson f g Hin Hg). destruct (g_json g); try reflexivity. congruence.
Qed.

(** When every stored geometry has a GeoJSON form, a KNN answer holds
    exactly [min(k, n)] features, [n] the number of features of
    FEATURES_TABLE with a geometry: rows with a NULL geometry sort last
    and never take the place of one that has a geometry. *)
Theorem knn_count (E : Engine) (Hord : sql_order_by_ok E)
    (Hjson : forall f g, In f (features E) -> fr_geom f = Some g -> g_json g <> JNull)
    (p : dict) (out : json) :
  knn E p = Ok out ->
  exists pt k,
    make_point E (py_get p "lon") (py_get p "lat") = Some pt /\
    py_int (py_get_default p "k" (JInt 10)) = Ok k /\
    List.length (fc_features out) =
      Nat.min (Z.to_nat k) (List.length (filter geom_present (features E))).
Proof.
  intros H. destruct (knn_ok_inv E p out H) as (pt & k & Hpt & Hk & _ & Hout).
  exists pt, k. split; [exact Hpt|split; [exact Hk|]].
  destruct (Hord _ (knn_key E pt) (features E)) as [Hperm Hsort].
  rewrite Hout, length_map.
  rewrite (filter_ext_in has_geom geom_present).
  - rewrite (sorted_nulls_last_firstn (knn_key E pt) geom_present _ _).
    + rewrite <- (Permutation_filter_length _ _ _ Hperm). reflexivity.
    + intros f. unfold geom_present, knn_key. destruct (fr_geom f); simpl.
      * split; [discriminate|reflexivity].
      * split; [discriminate|intros Hc; exfalso; apply Hc; reflexivity].
    + exact Hsort.
  - intros f Hf. apply in_firstn_in in Hf.
    apply (Permutation_in _ (Permutation_sym Hperm)) in Hf.
    unfold has_geom, geom_present, as_geojson_col.
    destruct (fr_geom f) as [g|] eqn:Hg; [|reflexivity].
    specialize (Hjson f g Hf Hg). destruct (g_json g); try reflexivity. congruence.
Qed.

(** A negative [limit] (within-distance) or [k] (KNN) is passed to LIMIT,
    which PostgreSQL rejects: with the required fields present the request
    fails with a database error (a 500), never with an answer. *)
Theorem negative_limit_is_db_error (E : Engine) (p : dict) :
  (forall lim, py_int (py_get_default p "limit" (JInt 500)) = Ok lim -> lim < 0 ->
     is_none (py_get p "lon") = false -> is_none (py_get p "lat") = false ->
     is_none (py_get p "radius_m") = false ->
     within_distance E p = Exn DatabaseError) /\
  (forall k, py_int (py_get_default p "k" (JInt 10)) = Ok k -> k < 0 ->
     is_none (py_get p "lon") = false -> is_none (py_get p "lat") = false ->
     knn E p = Exn DatabaseError).
Proof.
  split.
  - intros lim Hl Hneg H1 H2 H3. unfold within_distance. rewrite Hl. simpl bind.
    rewrite H1, H2, H3. simpl orb. cbv iota.
    unfold within_query, bind, db, sql_limit.
    destruct (make_point E _ _) as [pt|]; [|reflexivity].
    destruct (filterM _ _) as [hits|e] eqn:Hf.
    + apply Z.ltb_lt in Hneg. rewrite Hneg. reflexivity.
    + apply filterM_exn in Hf as [f [_ Hp]].
      destruct (fr_geom f) as [g|]; [|discriminate Hp].
      destruct (dwithin E g pt _); [discriminate Hp|]. injection Hp as <-. reflexivity.
  - intros k Hk Hneg H1 H2. unfold knn. rewrite Hk. simpl bind.
    rewrite H1, H2. simpl orb. cbv iota.
    unfold knn_query, bind, db, sql_limit.
    destruct (make_point E _ _) as [pt|]; [|reflexivity].
    apply Z.ltb_lt in Hneg. rewrite Hneg. reflexivity.
Qed.

(** /q/within-distance and /q/buffer convert [limit] with [int()] before
    they check their required fields: a [limit] that [int()] rejects fails
    the request with that conversion error (a 500) even when fields are
    missing; once it converts, a missing [lon], [lat] or radius is the 400. *)
Theorem limit_checked_before_fields (E : Engine) (p : dict) :
  (forall e, py_int (py_get_default p "limit" (JInt 500)) = Exn e ->
     within_distance E p = Exn e /\ http_status (within_distance E p) = 500) /\
  (forall e, py_int (py_get_default p "limit" (JInt 1000)) = Exn e ->
     buffer_analysis E p = Exn e /\ http_status (buffer_analysis E p) = 500) /\
  (forall n, py_int (py_get_default p "limit" (JInt 500)) = Ok n ->
     is_none (py_get p "lon") || is_none (py_get p "lat") || is_none (py_get p "radius_m") = true ->
     within_distance E p = Exn (HTTPException 400 "lon/lat/radius_m required")) /\
  (forall n, py_int (py_get_default p "limit" (JInt 1000)) = Ok n ->
     is_none (py_get p "lon") || is_none (py_get p "lat") || is_none (py_get p "buffer_m") = true ->
     buffer_analysis E p = Exn (HTTPException 400 "lon/lat/buffer_m required")).
Proof.
  split; [|split; [|split]].
  - intros e He. unfold within_distance. rewrite He. simpl.
    split; [reflexivity|eapply py_int_not_http, He].
  - intros e He. unfold buffer_analysis. rewrite He. simpl.
    split; [reflexivity|eapply py_int_not_http, He].
  - intros n Hn Hm. unfold within_distance. rewrite Hn. simpl bind. rewrite Hm. reflexivity.
  - intros n Hn Hm. unfold buffer_analysis. rewrite Hn. simpl bind. rewrite Hm. reflexivity.
Qed.

(** Without a truthy [region_ids], a [geoms] list with an item the Geometry
    Adapter rejects (null, a non-dict, a dict without ["type"], bad JSON)
    fails the whole union with that ValueError, a 500, before any query. *)
Theorem union_geoms_item_error (E : Engine) (p : dict) (l : list json) (x : json) :
  py_truthy (py_get p "region_ids") = false ->
  py_get p "geoms" = JList l ->
  In x l -> is_exn (parse_geojson_geometry (json_loads E) x) = true ->
  exists e, union_polygons E p = Exn e /\ is_value_error e = true /\
            http_status (union_polygons E p) = 500.
Proof.
  intros Hr Hg Hx Hbad.
  assert (Hm : is_exn (mapM (parse_geojson_geometry (json_loads E)) l) = true).
  { apply mapM_some_exn. apply Exists_exists. exists x. auto. }
  destruct (mapM (parse_geojson_geometry (json_loads E)) l) as [gl|e] eqn:Hmap;
    [discriminate Hm|].
  assert (Hu : union_polygons E p = Exn e).
  { assert (Ht : py_truthy (JList l) = true) by (destruct l; [destruct Hx|reflexivity]).
    unfold union_polygons. rewrite Hr, Hg, Ht.
    cbv beta iota delta [py_iter bind]. rewrite Hmap. reflexivity. }
  destruct (mapM_exn _ _ _ Hmap) as [y [_ Hy]].
  exists e. rewrite Hu. split; [reflexivity|split].
  - eapply parse_exn_value_error, Hy.
  - eapply parse_exn_status, Hy.
Qed.

(** A truthy [region_ids] decides the union alone: two requests with the
    same truthy [region_ids] get the same answer whatever their [geoms]. *)
Theorem union_region_ids_precedence (E : Engine) (p p' : dict) :
  py_truthy (py_get p "region_ids") = true ->
  py_get p' "region_ids" = py_get p "region_ids" ->
  union_polygons E p = union_polygons E p'.
Proof.
  intros Ht Heq. unfold union_polygons. rewrite Heq, Ht. reflexivity.
Qed.

(** A successful union by [region_ids] always carries a non-null geometry,
    the union of at least one stored row, and echoes the ids in its
    properties with [source = "regions"]. *)
Theorem union_region_ids_success (E : Engine) (p : dict) (out : json) :
  py_truthy (py_get p "region_ids") = true ->
  union_polygons E p = Ok out ->
  exists gs g,
    region_geoms E (py_get p "region_ids") = Some gs /\ gs <> [] /\
    union_agg E gs = Some (Some g) /\ g_json g <> JNull /\
    out = feature (g_json g)
            (JDict [("source", JStr "regions"); ("region_ids", py_get p "region_ids")]).
Proof.
  intros Ht H. unfold union_polygons in H. rewrite Ht in H.
  unfold union_by_ids, bind, db in H.
  destruct (region_geoms E _) as [gs|] eqn:Hr; [|discriminate H].
  destruct gs as [|g0 gs'] eqn:Hgs; [discriminate H|].
  destruct (union_agg E _) as [[g|]|] eqn:Hu; try discriminate H.
  simpl in H. destruct (g_json g) eqn:Hj; try discriminate H;
    injection H as <-; exists (g0 :: gs'), g;
    (split; [first [exact Hr|reflexivity]|split; [discriminate|split;
       [first [exact Hu|reflexivity]|split; [rewrite Hj; discriminate|
        unfold one_geom_to_feature, py_or; simpl; rewrite Hj; reflexivity]]]]).
Qed.

(** /q/transform converts [to_epsg] with [int()] before it parses
    [geojson]: a [to_epsg] that [int()] rejects is the error (a 500) even
    when [geojson] is missing or invalid; once it converts, a [geojson] the
    Geometry Adapter rejects is the error, also a 500. *)
Theorem transform_error_order (E : Engine) (p : dict) :
  (forall e, py_int (py_get_default p "to_epsg" (JInt 3857)) = Exn e ->
     transform E p = Exn e /\ http_status (transform E p) = 500) /\
  (forall n e, py_int (py_get_default p "to_epsg" (JInt 3857)) = Ok n ->
     parse_geojson_geometry (json_loads E) (py_get p "geojson") = Exn e ->
     transform E p = Exn e /\ http_status (transform E p) = 500).
Proof.
  split.
  - intros e He. unfold transform. rewrite He. simpl.
    split; [reflexivity|eapply py_int_not_http, He].
  - intros n e Hn He. unfold transform. rewrite Hn. simpl bind. rewrite He. simpl.
    split; [reflexivity|eapply parse_exn_status, He].
Qed.

(** /q/intersects, /q/area and /q/perimeter parse [geojson] first: when the
    Geometry Adapter rejects it, each fails with that ValueError (a 500),
    whatever the other fields, and runs no query. *)
Theorem geometry_handlers_adapter_error (E : Engine) (p : dict) (e : exc) :
  parse_geojson_geometry (json_loads E) (py_get p "geojson") = Exn e ->
  polygon_intersects E p = Exn e /\ polygon_area E p = Exn e /\
  polygon_perimeter E p = Exn e /\
  is_value_error e = true /\ http_status (Exn e : res json) = 500.
Proof.
  intros He.
  unfold polygon_intersects, polygon_area, polygon_perimeter. rewrite He. simpl.
  split; [reflexivity|split; [reflexivity|split; [reflexivity|split]]].
  - eapply parse_exn_value_error, He.
  - eapply parse_exn_status, He.
Qed.

(** /q/intersection checks that [a] and [b] are present before parsing
    them: a missing one is the 400, while a present one the Geometry Adapter
    rejects ([a] first, then [b]) fails with its ValueError, a 500. *)
Theorem intersection_error_order (E : Engine) (p : dict) :
  (is_none (py_get p "a") || is_none (py_get p "b") = true ->
     intersection E p = Exn (HTTPException 400 "Provide a and b (GeoJSON geometry or Feature)")) /\
  (forall e, is_none (py_get p "a") = false -> is_none (py_get p "b") = false ->
     parse_geojson_geometry (json_loads E) (py_get p "a") = Exn e ->
     intersection E p = Exn e /\ http_status (intersection E p) = 500) /\
  (forall ga e, is_none (py_get p "a") = false -> is_none (py_get p "b") = false ->
     parse_geojson_geometry (json_loads E) (py_get p "a") = Ok ga ->
     parse_geojson_geometry (json_loads E) (py_get p "b") = Exn e ->
     intersection E p = Exn e /\ http_status (intersection E p) = 500).
Proof.
  split; [|split].
  - intros Hm. unfold intersection. rewrite Hm. reflexivity.
  - intros e Ha Hb He. unfold intersection. rewrite Ha, Hb, He. simpl.
    split; [reflexivity|eapply parse_exn_status, He].
  - intros ga e Ha Hb Hga He. unfold intersection. rewrite Ha, Hb, Hga. simpl bind.
    rewrite He. simpl. split; [reflexivity|eapply parse_exn_status, He].
Qed.

(** ** Instances of the further properties *)

Lemma sample_geoms_json (feats : list feat_row) :
  Forall (fun f => forall g, fr_geom f = Some g -> g_json g <> JNull) feats ->
  forall f g, In f (features (sample_engine feats)) -> fr_geom f = Some g -> g_json g <> JNull.
Proof.
  intros H f g Hin. simpl in Hin. rewrite Forall_forall in H. exact (H f Hin g).
Qed.

Lemma feats_ABN_json :
  Forall (fun f => forall g, fr_geom f = Some g -> g_json g <> JNull) [feat_A; feat_B; feat_N].
Proof.
  repeat constructor; intros g Hg; simpl in Hg; try discriminate Hg;
    injection Hg as <-; discriminate.
Qed.

(** Within 600 m of (30.0, 60.0) only A lies: the answer has A alone. *)
Lemma within_distance_answer_in_range_witness :
  exists out, within_distance (sample_engine [feat_A; feat_B]) within_request = Ok out /\
    forall x, In x (fc_features out) ->
      exists f g, In f [feat_A; feat_B] /\ fr_geom f = Some g /\
        dwithin (sample_engine [feat_A; feat_B]) g
          (mkGeom 4326 (point_json (JFloat 30.0) (JFloat 60.0))) (JFloat 600.0) = Some true /\
        x = dist_feature (sample_engine [feat_A; feat_B])
              (mkGeom 4326 (point_json (JFloat 30.0) (JFloat 60.0))) f.
Proof.
  assert (Hok : is_exn (within_distance (sample_engine [feat_A; feat_B]) within_request) = false)
    by (vm_compute; reflexivity).
  destruct (within_distance _ _) as [out|e] eqn:Hw; [|discriminate Hok].
  exists out. split; [reflexivity|].
  destruct (within_distance_answer_in_range (sample_engine [feat_A; feat_B])
              (sample_engine_order_ok _) within_request out Hw)
    as (pt & limit & Hpt & _ & _ & _ & Hin).
  vm_compute in Hpt. injection Hpt as <-. exact Hin.
Defined.

Lemma within_distance_count_witness :
  exists out, within_distance (sample_engine [feat_A; feat_B; feat_N]) within_request = Ok out /\
    List.length (fc_features out) = 1%nat.
Proof.
  assert (Hok : is_exn (within_distance (sample_engine [feat_A; feat_B; feat_N])
                          within_request) = false)
    by (vm_compute; reflexivity).
  destruct (within_distance _ _) as [out|e] eqn:Hw; [|discriminate Hok].
  exists out. split; [reflexivity|].
  destruct (within_distance_count (sample_engine [feat_A; feat_B; feat_N])
              (sample_engine_order_ok _) (sample_geoms_json _ feats_ABN_json)
              within_request out Hw) as (pt & limit & Hpt & Hl & Hlen).
  vm_compute in Hpt. injection Hpt as <-. vm_compute in Hl. injection Hl as <-.
  rewrite Hlen. vm_compute. reflexivity.
Defined.

(** KNN with k = 3 over A, B and a row with a NULL geometry: two features. *)
Lemma knn_count_witness :
  exists out, knn (sample_engine [feat_A; feat_B; feat_N])
                  [("lon", JFloat 30.0); ("lat", JFloat 60.0); ("k", JInt 3)] = Ok out /\
    List.length (fc_features out) = 2%nat.
Proof.
  assert (Hok : is_exn (knn (sample_engine [feat_A; feat_B; feat_N])
                  [("lon", JFloat 30.0); ("lat", JFloat 60.0); ("k", JInt 3)]) = false)
    by (vm_compute; reflexivity).
  destruct (knn _ _) as [out|e] eqn:Hk; [|discriminate Hok].
  exists out. split; [reflexivity|].
  destruct (knn_count (sample_engine [feat_A; feat_B; feat_N])
              (sample_engine_order_ok _) (sample_geoms_json _ feats_ABN_json) _ out Hk)
    as (pt & k & _ & Hkk & Hlen).
  vm_compute in Hkk. injection Hkk as <-. rewrite Hlen. vm_compute. reflexivity.
Defined.

Lemma negative_limit_is_db_error_witness :
  within_distance (sample_engine [feat_A; feat_B])
    [("lon", JFloat 30.0); ("lat", JFloat 60.0); ("radius_m", JFloat 600.0); ("limit", JInt (-1))]
    = Exn DatabaseError /\
  knn (sample_engine [feat_A; feat_B])
    [("lon", JFloat 30.0); ("lat", JFloat 60.0); ("k", JInt (-1))] = Exn DatabaseError.
Proof.
  split.
  - apply (proj1 (negative_limit_is_db_error (sample_engine [feat_A; feat_B])
      [("lon", JFloat 30.0); ("lat", JFloat 60.0); ("radius_m", JFloat 600.0); ("limit", JInt (-1))])
      (-1)); first [reflexivity|lia].
  - apply (proj2 (negative_limit_is_db_error (sample_engine [feat_A; feat_B])
      [("lon", JFloat 30.0); ("lat", JFloat 60.0); ("k", JInt (-1))]) (-1));
      first [reflexivity|lia].
Defined.

Lemma limit_checked_before_fields_witness :
  (within_distance (sample_engine []) [("limit", JStr "ten")] =
     Exn (ValueError "invalid literal for int() with base 10") /\
   http_status (within_distance (sample_engine []) [("limit", JStr "ten")]) = 500) /\
  buffer_analysis (sample_engine []) [("lon", JFloat 30.0)] =
    Exn (HTTPException 400 "lon/lat/buffer_m required").
Proof.
  split.
  - apply (proj1 (limit_checked_before_fields (sample_engine []) [("limit", JStr "ten")])).
    reflexivity.
  - apply (proj2 (proj2 (proj2 (limit_checked_before_fields (sample_engine [])
             [("lon", JFloat 30.0)]))) 1000); reflexivity.
Defined.

Lemma union_geoms_item_error_witness :
  exists e, union_polygons (sample_engine [])
              [("geoms", JList [point_json (JFloat 1) (JFloat 1); JNull])] = Exn e /\
    is_value_error e = true /\
    http_status (union_polygons (sample_engine [])
                   [("geoms", JList [point_json (JFloat 1) (JFloat 1); JNull])]) = 500.
Proof.
  apply (union_geoms_item_error (sample_engine [])
           [("geoms", JList [point_json (JFloat 1) (JFloat 1); JNull])]
           [point_json (JFloat 1) (JFloat 1); JNull] JNull);
    [reflexivity|reflexivity|simpl; auto|reflexivity].
Defined.

Lemma union_region_ids_precedence_witness :
  union_polygons (sample_engine_regions [Some (mkGeom 4326 (point_json (JFloat 1) (JFloat 1)))])
    [("region_ids", JList [JInt 1]); ("geoms", JList [JNull])] =
  union_polygons (sample_engine_regions [Some (mkGeom 4326 (point_json (JFloat 1) (JFloat 1)))])
    [("region_ids", JList [JInt 1])].
Proof. apply union_region_ids_precedence; reflexivity. Defined.

Lemma union_region_ids_success_witness :
  exists out,
    union_polygons (sample_engine_regions [Some (mkGeom 4326 (point_json (JFloat 1) (JFloat 1)))])
      [("region_ids", JList [JInt 1])] = Ok out /\
    out = feature (point_json (JFloat 1) (JFloat 1))
            (JDict [("source", JStr "regions"); ("region_ids", JList [JInt 1])]).
Proof.
  assert (Hok : is_exn (union_polygons
            (sample_engine_regions [Some (mkGeom 4326 (point_json (JFloat 1) (JFloat 1)))])
            [("region_ids", JList [JInt 1])]) = false) by (vm_compute; reflexivity).
  destruct (union_polygons _ _) as [out|e] eqn:Hu; [|discriminate Hok].
  exists out. split; [reflexivity|].
  destruct (union_region_ids_success
              (sample_engine_regions [Some (mkGeom 4326 (point_json (JFloat 1) (JFloat 1)))])
              [("region_ids", JList [JInt 1])] out eq_refl Hu) as (gs & g & Hr & _ & Ha & _ & Hout).
  vm_compute in Hr. injection Hr as <-. vm_compute in Ha. injection Ha as <-. exact Hout.
Defined.

Lemma transform_error_order_witness :
  transform (sample_engine []) [("to_epsg", JStr "web")] =
    Exn (ValueError "invalid literal for int() with base 10") /\
  transform (sample_engine []) [("geojson", JInt 5)] =
    Exn (ValueError "Invalid GeoJSON: must be a dict with a 'type' field").
Proof.
  split.
  - apply (proj1 (transform_error_order (sample_engine []) [("to_epsg", JStr "web")])).
    reflexivity.
  - apply (proj2 (transform_error_order (sample_engine []) [("geojson", JInt 5)]) 3857);
      reflexivity.
Defined.

(** A JSON string that does not decode. *)
Lemma geometry_handlers_adapter_error_witness :
  polygon_intersects (sample_engine []) [("geojson", JStr "{bad"); ("source", JInt 5)] =
    Exn JSONDecodeError /\
  polygon_area (sample_engine []) [("geojson", JStr "{bad")] = Exn JSONDecodeError.
Proof.
  split.
  - apply (geometry_handlers_adapter_error (sample_engine [])
             [("geojson", JStr "{bad"); ("source", JInt 5)]); reflexivity.
  - apply (geometry_handlers_adapter_error (sample_engine []) [("geojson", JStr "{bad")]).
    reflexivity.
Defined.

Lemma intersection_error_order_witness :
  intersection (sample_engine []) [("b", JList [])] =
    Exn (HTTPException 400 "Provide a and b (GeoJSON geometry or Feature)") /\
  intersection (sample_engine []) [("a", JList []); ("b", point_json (JFloat 1) (JFloat 1))] =
    Exn (ValueError "Invalid GeoJSON: must be a dict with a 'type' field").
Proof.
  split.
  - apply (proj1 (intersection_error_order (sample_engine []) [("b", JList [])])). reflexivity.
  - apply (proj1 (proj2 (intersection_error_order (sample_engine [])
             [("a", JList []); ("b", point_json (JFloat 1) (JFloat 1))]))); reflexivity.
Defined.
